(** * The Ollama translation client (plugins/ai_subtitle/translate/ollama_translate.py)

    A shallow embedding of the [Ollama] class and the properties of its
    session handling, request construction and response handling.

    - Python [str] values are sequences of Unicode code points.
    - The caller's [session_cache] is a dict from session ids to references to
      list objects; the list objects live in a store, so that a list reached
      through the dict and a list created by [.get(key, [])] are told apart.
    - The HTTP library is the environment: a call receives an oracle giving,
      for each request, either the [RequestException] that [requests] raised
      or the response that passed [raise_for_status].
    - Exceptions are values of [PyExc]; [try/except] is a case analysis. *)

From Stdlib Require Import ZArith NArith QArith String Ascii List Lia.
From stdpp Require Import gmap list fin_maps.

Set Warnings "-register-all".

(** ** Python values *)

Module Py.

(** A Python [str]: its code points, in order. *)
Definition pystr := list N.

(** The bytes of a source literal, as written in the (UTF-8) source file. *)
Definition bytes_of (s : string) : list N :=
  map N_of_ascii (list_ascii_of_string s).

(** Decoding of the UTF-8 bytes of a literal into its code points. *)
Fixpoint utf8_decode (bs : list N) : pystr :=
  match bs with
  | [] => []
  | b0 :: r0 =>
      if (b0 <? 128)%N then b0 :: utf8_decode r0
      else if (b0 <? 224)%N then
        match r0 with
        | b1 :: r1 =>
            N.lor (N.shiftl (N.land b0 31) 6) (N.land b1 63) :: utf8_decode r1
        | _ => []
        end
      else if (b0 <? 240)%N then
        match r0 with
        | b1 :: b2 :: r2 =>
            N.lor (N.shiftl (N.land b0 15) 12)
              (N.lor (N.shiftl (N.land b1 63) 6) (N.land b2 63))
            :: utf8_decode r2
        | _ => []
        end
      else
        match r0 with
        | b1 :: b2 :: b3 :: r3 =>
            N.lor (N.shiftl (N.land b0 7) 18)
              (N.lor (N.shiftl (N.land b1 63) 12)
                 (N.lor (N.shiftl (N.land b2 63) 6) (N.land b3 63)))
            :: utf8_decode r3
        | _ => []
        end
  end.

(** A string literal of the source. *)
Definition lit (s : string) : pystr := utf8_decode (bytes_of s).

(** The escape [\n] of a Python literal. *)
Definition nl : pystr := [10%N].

(** [str.isspace] on one code point: the table of CPython's
    [_PyUnicode_IsWhitespace]. *)
Definition isspace (c : N) : bool :=
  ((9 <=? c) && (c <=? 13) || (28 <=? c) && (c <=? 32)
   || (c =? 133) || (c =? 160) || (c =? 5760)
   || (8192 <=? c) && (c <=? 8202)
   || (c =? 8232) || (c =? 8233) || (c =? 8239) || (c =? 8287)
   || (c =? 12288))%N.

Fixpoint lstrip (s : pystr) : pystr :=
  match s with
  | c :: r => if isspace c then lstrip r else s
  | [] => []
  end.

Definition rstrip (s : pystr) : pystr := rev (lstrip (rev s)).

(** [s.strip()] *)
Definition strip (s : pystr) : pystr := rstrip (lstrip s).

(** [s.rstrip('/')] *)
Fixpoint drop_slashes (s : pystr) : pystr :=
  match s with
  | c :: r => if (c =? 47)%N then drop_slashes r else s
  | [] => []
  end.

Definition rstrip_slash (s : pystr) : pystr := rev (drop_slashes (rev s)).

(** Truth value of an optional string argument: [None] and [""] are false. *)
Definition truthy (o : option pystr) : bool :=
  match o with
  | Some (_ :: _) => true
  | _ => false
  end.

(** [k in s] for two strings: [k] occurs in [s] as a substring. *)
Fixpoint starts_with (k s : pystr) : bool :=
  match k, s with
  | [], _ => true
  | a :: k', b :: s' => (a =? b)%N && starts_with k' s'
  | _ :: _, [] => false
  end.

Fixpoint occurs_in (k s : pystr) : bool :=
  starts_with k s || match s with
                     | [] => false
                     | _ :: s' => occurs_in k s'
                     end.

(** The values a JSON document decodes to, which are also the values a caller
    passes as generation options. *)
Inductive pyval :=
| PyNone
| PyBool (b : bool)
| PyInt (z : Z)
| PyFloat (q : Q)
| PyStr (s : pystr)
| PyList (l : list pyval)
| PyDict (d : gmap pystr pyval).

Inductive pytype := TNone | TBool | TInt | TFloat | TStr | TList | TDict.

Definition type_of (v : pyval) : pytype :=
  match v with
  | PyNone => TNone
  | PyBool _ => TBool
  | PyInt _ => TInt
  | PyFloat _ => TFloat
  | PyStr _ => TStr
  | PyList _ => TList
  | PyDict _ => TDict
  end.

(** Errors the interpreter raises by itself on the operations used here. *)
Inductive Fault :=
| NotContainer (t : pytype)               (* TypeError: [k in v] *)
| NotIterable (t : pytype)                (* TypeError: [for x in v] *)
| BadSubscript (t : pytype)               (* TypeError: [v['key']], v not a dict *)
| NoAttribute (t : pytype) (attr : pystr) (* AttributeError: [v.attr] *)
| KeyMissing (k : pystr)                  (* KeyError: [d['key']] *)
| DuplicateArgument (name : pystr).       (* TypeError: multiple values for argument *)

Inductive PyExc :=
| RequestException (desc : pystr)  (* raised by requests; [desc] is [str(e)] *)
| PlainException (msg : pystr)     (* [Exception(msg)] *)
| JSONDecodeError (desc : pystr)   (* raised by [response.json()] *)
| Interp (f : Fault)
| LibraryError (desc : pystr).     (* raised inside requests, no RequestException *)

(** The outcome of evaluating an expression that may raise. *)
Inductive Result (A : Type) :=
| Return (a : A)
| Raise (e : PyExc).
Arguments Return {A} a.
Arguments Raise {A} e.

Definition bind {A B} (c : Result A) (k : A -> Result B) : Result B :=
  match c with
  | Return a => k a
  | Raise e => Raise e
  end.

Fixpoint for_each {A B} (f : A -> Result B) (l : list A) : Result (list B) :=
  match l with
  | [] => Return []
  | x :: r =>
      bind (f x) (fun y => bind (for_each f r) (fun ys => Return (y :: ys)))
  end.

(** [k in v], for a string [k]. *)
Definition py_in (k : pystr) (v : pyval) : Result bool :=
  match v with
  | PyDict d => Return (bool_decide (is_Some (d !! k)))
  | PyList l =>
      Return (existsb (fun x => match x with
                                | PyStr s => bool_decide (s = k)
                                | _ => false
                                end) l)
  | PyStr s => Return (occurs_in k s)
  | _ => Raise (Interp (NotContainer (type_of v)))
  end.

(** [v[k]], for a string [k]. *)
Definition py_getitem (v : pyval) (k : pystr) : Result pyval :=
  match v with
  | PyDict d =>
      match d !! k with
      | Some x => Return x
      | None => Raise (Interp (KeyMissing k))
      end
  | _ => Raise (Interp (BadSubscript (type_of v)))
  end.

(** [v.get(k, dflt)] *)
Definition py_get (v : pyval) (k : pystr) (dflt : pyval) : Result pyval :=
  match v with
  | PyDict d => Return (default dflt (d !! k))
  | _ => Raise (Interp (NoAttribute (type_of v) (lit "get")))
  end.

(** [v.strip()] *)
Definition py_strip (v : pyval) : Result pystr :=
  match v with
  | PyStr s => Return (strip s)
  | _ => Raise (Interp (NoAttribute (type_of v) (lit "strip")))
  end.

(** The items [for x in v] runs through. *)
Definition py_iter (v : pyval) : Result (list pyval) :=
  match v with
  | PyList l => Return l
  | PyDict d => Return (map (fun kv => PyStr (fst kv)) (map_to_list d))
  | PyStr s => Return (map (fun c => PyStr [c]) s)
  | _ => Raise (Interp (NotIterable (type_of v)))
  end.

End Py.

Import Py.

Declare Scope py_scope.
Delimit Scope py_scope with py.
Notation "x <~ c ;; k" := (bind c (fun x => k))
  (at level 100, c at next level, right associativity) : py_scope.
Open Scope py_scope.

(** ** The HTTP library, as the client sees it *)

Module Http.

(** A chat message of the API: [{"role": ..., "content": ...}]. *)
Inductive Role := system | user | assistant.

#[global] Instance Role_eq_dec : EqDecision Role.
Proof. solve_decision. Defined.

Record Message := { role : Role; content : pystr }.

(** The POST of [__send_request]: URL, JSON payload, timeout. *)
Record ChatRequest := {
  url : pystr;
  model : pystr;
  messages : list Message;
  stream : pyval;
  options : gmap pystr pyval;
  timeout : Z
}.

(** What [response.json()] does on a response. *)
Inductive Body :=
| NotJSON (desc : pystr)   (* raises JSONDecodeError, [str(e) = desc] *)
| JSON (v : pyval).

(** What [requests.post(...)] followed by [response.raise_for_status()]
    does.
    - [Failed]: the call of [requests.post] raises a [RequestException]
      (connection failure, timeout), with [str(e) = desc].
    - [Passed]: it returns a response on which [raise_for_status] does not
      raise.
    - [Refused]: it returns a response with an error status, on which
      [raise_for_status] raises [HTTPError], a [RequestException], with
      [str(e) = desc].
    - [Crashed]: the call of [requests.post] raises an exception that is not
      a [RequestException], with [str(e) = desc]: the [ValueError] of a
      timeout that is not positive, the [OverflowError] of one too large;
      nothing is sent. *)
Inductive Outcome :=
| Failed (desc : pystr)
| Passed (body : Body)
| Refused (status_code : Z) (desc : pystr) (body : Body)
| Crashed (desc : pystr).

Definition json (b : Body) : Result pyval :=
  match b with
  | NotJSON desc => Raise (JSONDecodeError desc)
  | JSON v => Return v
  end.

(** What [requests.get(...)] does by itself, before any check of the status:
    it raises (connection failure, timeout), or returns a response with its
    status code. *)
Inductive Fetched :=
| Unreachable (desc : pystr)
| Answered (status_code : Z) (body : Body).

End Http.

Import Http.

(** ** The client *)

Module Ollama.

Record Ollama := { _base_url : pystr; _model : pystr; _timeout : Z }.

Definition default_base_url : pystr := lit "http://127.0.0.1:11434".
Definition default_model : pystr := lit "huihui_ai/hunyuan-mt-abliterated:latest".
Definition default_timeout : Z := 300.

(** [Ollama.__init__]: an argument that is [None], empty or zero keeps the
    class default. *)
Definition __init__ (base_url model : option pystr) (timeout : option Z) : Ollama :=
  {| _base_url := match base_url with
                  | Some (c :: r) => rstrip_slash (c :: r)
                  | _ => default_base_url
                  end;
     _model := match model with
               | Some (c :: r) => c :: r
               | _ => default_model
               end;
     _timeout := match timeout with
                 | Some t => if (t =? 0)%Z then default_timeout else t
                 | None => default_timeout
                 end |}.

(** *** The session cache

    [keys] is the caller's dict: session id to list object. [lists] holds the
    list objects; a reference is an index into it. Lists that no key refers
    to are the ones only local variables held. *)

Abbreviation ref := nat.

Record Cache := { keys : gmap pystr ref; lists : list (list Message) }.

(** The sequence stored for a session id, if the dict has the key. *)
Definition stored (c : Cache) (session_id : pystr) : option (list Message) :=
  match keys c !! session_id with
  | Some r => lists c !! r
  | None => None
  end.

(** Every reference of the dict denotes a list object. Python has no other
    state; on a cache outside [wf] a missing list reads as not empty and
    without items, and appending to it does nothing. *)
Definition wf (c : Cache) : Prop :=
  forall k r, keys c !! k = Some r -> r < length (lists c).

(** [session_cache.get(session_id, [])]: the stored list object, or a new
    empty list object that the dict does not refer to. *)
Definition get_or_new (session_id : pystr) (c : Cache) : ref * Cache :=
  match keys c !! session_id with
  | Some r => (r, c)
  | None => (length (lists c), {| keys := keys c; lists := lists c ++ [[]] |})
  end.

(** [not session] *)
Definition is_empty (session : ref) (c : Cache) : bool :=
  match lists c !! session with
  | Some [] => true
  | _ => false
  end.

(** [session.append(m)]: in place, seen through every reference. *)
Definition append (session : ref) (m : Message) (c : Cache) : Cache :=
  {| keys := keys c; lists := alter (fun s => s ++ [m]) session (lists c) |}.

(** The items of a list object. *)
Definition read (session : ref) (c : Cache) : list Message :=
  default [] (lists c !! session).

Definition session_system_prompt : pystr :=
  lit "你是一个专业的翻译专家，请准确流畅地进行中英互译。".

(** [Ollama.__get_session] (lines 66-86) *)
Definition __get_session (session_id message : pystr) (session_cache : Cache)
  : ref * Cache :=
  let '(session, c) := get_or_new session_id session_cache in
  let c := if is_empty session c
           then append session {| role := system; content := session_system_prompt |} c
           else c in
  let c := append session {| role := user; content := message |} c in
  (session, c).

(** [Ollama.__save_session] (lines 88-98) *)
Definition __save_session (session_id assistant_message : pystr)
    (session_cache : Cache) : Cache :=
  let '(session, c) := get_or_new session_id session_cache in
  let c := append session {| role := assistant; content := assistant_message |} c in
  {| keys := <[session_id := session]> (keys c); lists := lists c |}.

(** [Ollama.clear_session] (lines 161-166): no return value. *)
Definition clear_session (session_id : pystr) (session_cache : Cache)
  : Result unit * Cache :=
  if bool_decide (is_Some (keys session_cache !! session_id))
  then (Return tt, {| keys := delete session_id (keys session_cache);
                      lists := lists session_cache |})
  else (Return tt, session_cache).

(** *** Requests *)

Definition default_options : gmap pystr pyval :=
  {[ lit "temperature" := PyFloat 0.1; lit "top_p" := PyFloat 0.9 ]}.

(** The URL and payload of [__send_request] (lines 40-52): the defaults of
    [options], updated with the keyword arguments. *)
Definition payload (self : Ollama) (messages : list Message) (stream : pyval)
    (kwargs : gmap pystr pyval) : ChatRequest :=
  {| url := _base_url self ++ lit "/api/chat";
     model := _model self;
     messages := messages;
     stream := stream;
     options := kwargs ∪ default_options;
     timeout := _timeout self |}.

(** [Ollama.__send_request] (lines 29-64), called as
    [self.__send_request(messages, **kwargs)]: a keyword [messages] clashes
    with the positional argument, a keyword [stream] binds the parameter of
    that name, the other keywords are the [**kwargs] merged into the options.
    [except RequestException] (line 63) wraps what [requests.post] and
    [raise_for_status] raise when it is a [RequestException], and lets any
    other exception through. The second component is the calls made to
    [requests.post], each with the request it was given. *)
Definition __send_request (self : Ollama) (messages : list Message)
    (kwargs : gmap pystr pyval) (net : ChatRequest -> Outcome)
  : Result Body * list ChatRequest :=
  if bool_decide (is_Some (kwargs !! lit "messages"))
  then (Raise (Interp (DuplicateArgument (lit "messages"))), [])
  else
    let stream := default (PyBool false) (kwargs !! lit "stream") in
    let kwargs := delete (lit "stream") kwargs in
    let payload := payload self messages stream kwargs in
    (match net payload with
     | Failed desc => Raise (PlainException (lit "请求Ollama API失败: " ++ desc))
     | Passed response => Return response
     | Refused _ desc _ =>
         Raise (PlainException (lit "请求Ollama API失败: " ++ desc))
     | Crashed desc => Raise (LibraryError desc)
     end, [payload]).

(** The system prompt of [translate_text] (lines 118-122). *)
Definition system_prompt (target_lang : pystr) : pystr :=
  lit "你是一位专业的翻译专家，请严格遵循以下规则：
1. 将文本精准翻译为" ++ target_lang ++ lit "，保持原文本意
2. 使用自然的口语化表达，符合目标语言的阅读习惯
3. 结合上下文语境，保持术语和风格的一致性
4. 只输出译文，不要添加任何解释、说明或额外内容".

Definition text_label : pystr := lit "需要翻译的文本：" ++ nl.
Definition context_label : pystr := lit "翻译上下文：" ++ nl.

(** The user message of [translate_text] (lines 125-127). *)
Definition user_message (text : pystr) (context : option pystr) : pystr :=
  let user_message := text_label ++ text in
  match context with
  | Some (c :: r) => context_label ++ (c :: r) ++ nl ++ nl ++ user_message
  | _ => user_message
  end.

Definition format_error : pystr := lit "API响应格式异常".
Definition translate_error : pystr := lit "翻译过程中出错: ".
Definition models_error : pystr := lit "获取模型列表失败: ".
Definition default_target_lang : pystr := lit "zh".

(** What a call of [translate_text] leaves behind: the returned pair (or the
    exception that escaped), the caller's cache, the requests given to
    [requests.post]. *)
Record Call := {
  result : Result (bool * pystr);
  cache_after : option Cache;
  wire : list ChatRequest
}.

(** [Ollama.check_health] (lines 181-189): the bare [except] catches
    whatever the GET raises. *)
Definition check_health (self : Ollama) (net : pystr -> Z -> Fetched) : Result bool :=
  match net (_base_url self ++ lit "/api/tags") 5%Z with
  | Answered status_code _ => Return (status_code =? 200)%Z
  | Unreachable _ => Return false
  end.

Section Runtime.

(** The interpreter's wording of its own errors. *)
Variable fault_text : Fault -> pystr.

(** [str(e)] *)
Definition str (e : PyExc) : pystr :=
  match e with
  | RequestException desc => desc
  | PlainException msg => msg
  | JSONDecodeError desc => desc
  | Interp f => fault_text f
  | LibraryError desc => desc
  end.

(** [Ollama.translate_text] (lines 100-159). [kwargs] are the keyword
    arguments that name none of its own parameters. *)
Definition translate_text (self : Ollama) (text target_lang : pystr)
    (context session_id : option pystr) (session_cache : option Cache)
    (kwargs : gmap pystr pyval) (net : ChatRequest -> Outcome) : Call :=
  let system_prompt := system_prompt target_lang in
  let user_message := user_message text context in
  let messages := [ {| role := system; content := system_prompt |} ] in
  let '(messages, session_cache) :=
    match session_id, session_cache with
    | Some (a :: s), Some c =>
        let '(session, c) := __get_session (a :: s) user_message c in
        (read session c, Some c)
    | _, _ => (messages ++ [ {| role := user; content := user_message |} ],
               session_cache)
    end in
  let '(response, sent) := __send_request self messages kwargs net in
  let attempt : Result (bool * pystr * option Cache) :=
    response <~ response ;;
    response_data <~ json response ;;
    has_message <~ py_in (lit "message") response_data ;;
    has_content <~ (if has_message : bool
                    then m <~ py_getitem response_data (lit "message") ;;
                         py_in (lit "content") m
                    else Return false) ;;
    if has_content : bool then
      m <~ py_getitem response_data (lit "message") ;;
      v <~ py_getitem m (lit "content") ;;
      translated_text <~ py_strip v ;;
      let session_cache :=
        match session_id, session_cache with
        | Some (a :: s), Some c => Some (__save_session (a :: s) translated_text c)
        | _, _ => session_cache
        end in
      Return (true, translated_text, session_cache)
    else Return (false, format_error, session_cache) in
  match attempt with
  | Return (ok, payload, c) =>
      {| result := Return (ok, payload); cache_after := c; wire := sent |}
  | Raise e =>
      {| result := Return (false, translate_error ++ str e);
         cache_after := session_cache; wire := sent |}
  end.

(** [Ollama.list_models] (lines 168-179); [net] answers the GET of a URL
    with a timeout. *)
Definition list_models (self : Ollama) (net : pystr -> Z -> Outcome)
  : Result (bool * list pyval) :=
  let attempt : Result (list pyval) :=
    response <~ match net (_base_url self ++ lit "/api/tags") 10%Z with
                | Failed desc => Raise (RequestException desc)
                | Passed response => Return response
                | Refused _ desc _ => Raise (RequestException desc)
                | Crashed desc => Raise (LibraryError desc)
                end ;;
    models_data <~ json response ;;
    seq <~ py_get models_data (lit "models") (PyList []) ;;
    items <~ py_iter seq ;;
    for_each (fun model => py_getitem model (lit "name")) items in
  match attempt with
  | Return models => Return (true, models)
  | Raise e => Return (false, [PyStr (models_error ++ str e)])
  end.

End Runtime.

End Ollama.

(** ** Vocabulary of the statements *)

Module Steps.

Import Ollama.

(** The seed of a session: the fixed system message, when the list is empty. *)
Definition seed (l : list Message) : list Message :=
  match l with
  | [] => [ {| role := system; content := session_system_prompt |} ]
  | _ => []
  end.

(** [session_id and session_cache is not None], with the values it holds for. *)
Definition session_of (session_id : option pystr) (session_cache : option Cache)
  : option (pystr * Cache) :=
  match session_id, session_cache with
  | Some (a :: s), Some c => Some (a :: s, c)
  | _, _ => None
  end.

(** Lines 117-139 of [translate_text]: the messages to send and the cache
    once they are assembled. *)
Definition assembled (text target_lang : pystr) (context session_id : option pystr)
    (session_cache : option Cache) : list Message * option Cache :=
  match session_of session_id session_cache with
  | Some (sid, c) =>
      let sc := __get_session sid (user_message text context) c in
      (read sc.1 sc.2, Some sc.2)
  | None =>
      ([ {| role := system; content := system_prompt target_lang |};
         {| role := user; content := user_message text context |} ],
       session_cache)
  end.

(** The request [translate_text] posts when it posts one. *)
Definition posted (self : Ollama) (text target_lang : pystr)
    (context session_id : option pystr) (session_cache : option Cache)
    (kwargs : gmap pystr pyval) : ChatRequest :=
  payload self (assembled text target_lang context session_id session_cache).1
    (default (PyBool false) (kwargs !! lit "stream"))
    (delete (lit "stream") kwargs).

(** The response is a JSON object whose [message] is an object whose
    [content] is the string [s]. *)
Definition chat_reply (o : Outcome) (s : pystr) : Prop :=
  exists d m, o = Passed (JSON (PyDict d))
              /\ d !! lit "message" = Some (PyDict m)
              /\ m !! lit "content" = Some (PyStr s).

(** The response is a JSON object without a [message], or whose [message] is
    an object without a [content]. *)
Definition reply_lacks_content (o : Outcome) : Prop :=
  exists d, o = Passed (JSON (PyDict d))
            /\ (d !! lit "message" = None
                \/ exists m, d !! lit "message" = Some (PyDict m)
                             /\ m !! lit "content" = None).

(** Number of messages of a role in a sequence. *)
Definition count_role (r : Role) (l : list Message) : nat :=
  length (filter (fun m => role m = r) l).

(** The sequence an optional cache stores for a session id. *)
Definition stored_in (cache : option Cache) (session_id : pystr)
  : option (list Message) :=
  match cache with
  | Some c => stored c session_id
  | None => None
  end.

(** The sequence the cache stores for a session id after a call. *)
Definition stored_after (call : Call) (session_id : pystr) : option (list Message) :=
  stored_in (cache_after call) session_id.

(** One call of a conversation: its text, target language, context, keyword
    arguments, and what the network does with its request. *)
Record Turn := {
  turn_text : pystr;
  turn_lang : pystr;
  turn_context : option pystr;
  turn_kwargs : gmap pystr pyval;
  turn_net : ChatRequest -> Outcome
}.

Definition call_of (fault_text : Fault -> pystr) (self : Ollama)
    (session_id : option pystr) (cache : option Cache) (t : Turn) : Call :=
  translate_text fault_text self (turn_text t) (turn_lang t) (turn_context t)
    session_id cache (turn_kwargs t) (turn_net t).

(** The cache after a sequence of calls with one session id, each call
    receiving the cache the previous one left. *)
Fixpoint converse (fault_text : Fault -> pystr) (self : Ollama)
    (session_id : option pystr) (cache : option Cache) (turns : list Turn)
  : option Cache :=
  match turns with
  | [] => cache
  | t :: rest =>
      converse fault_text self session_id
        (cache_after (call_of fault_text self session_id cache t)) rest
  end.

(** The turn posts a request and receives a reply with a string content. *)
Definition answered (t : Turn) : Prop :=
  turn_kwargs t !! lit "messages" = None
  /\ exists s, forall q, chat_reply (turn_net t q) s.

(** [requests.get(...)] followed by [response.raise_for_status()] (lines
    173-174). Which status codes make [raise_for_status] raise, and the text
    of the [HTTPError] it raises, belong to the library: [is_error] and
    [error_text]. *)
Definition checked (is_error : Z -> bool) (error_text : Z -> pystr)
    (f : Fetched) : Outcome :=
  match f with
  | Unreachable desc => Failed desc
  | Answered status_code body =>
      if is_error status_code
      then Refused status_code (error_text status_code) body
      else Passed body
  end.

(** The request failed in transport: [requests.post] raised a
    [RequestException], or the response had an error status and
    [raise_for_status] raised; [desc] is the text of the exception. *)
Definition transport_failure (o : Outcome) (desc : pystr) : Prop :=
  o = Failed desc \/ exists status_code body, o = Refused status_code desc body.

(** A value of [models] is not a named model object: an object without
    [name], or not an object; [e] is what [model['name']] raises on it. *)
Definition nameless (m : pyval) (e : PyExc) : Prop :=
  (exists dm, m = PyDict dm /\ dm !! lit "name" = None
              /\ e = Interp (KeyMissing (lit "name")))
  \/ ((forall dm, m <> PyDict dm) /\ e = Interp (BadSubscript (type_of m))).

(** A code point is the slash of [rstrip('/')]. *)
Definition is_slash (c : N) : Prop := c = 47%N.

(** A string does not end with a slash. *)
Definition no_trailing_slash (s : pystr) : Prop :=
  forall r c, s = r ++ [c] -> c <> 47%N.

(** A model object of [/api/tags] with its name. *)
Definition named (m n : pyval) : Prop :=
  exists dm, m = PyDict dm /\ dm !! lit "name" = Some n.

End Steps.

(** ** Concrete inputs used by the examples below *)

Module Demo.

Import Ollama Steps.

Definition type_name (t : pytype) : pystr :=
  match t with
  | TNone => lit "NoneType"
  | TBool => lit "bool"
  | TInt => lit "int"
  | TFloat => lit "float"
  | TStr => lit "str"
  | TList => lit "list"
  | TDict => lit "dict"
  end.

(** The wording of CPython 3.12 for the interpreter's errors (the statements
    below hold for every wording; the examples use this one). *)
Definition cpython_text (f : Fault) : pystr :=
  match f with
  | NotContainer t => lit "argument of type '" ++ type_name t ++ lit "' is not iterable"
  | NotIterable t => lit "'" ++ type_name t ++ lit "' object is not iterable"
  | BadSubscript TStr => lit "string indices must be integers, not 'str'"
  | BadSubscript TList => lit "list indices must be integers or slices, not str"
  | BadSubscript t => lit "'" ++ type_name t ++ lit "' object is not subscriptable"
  | NoAttribute t attr =>
      lit "'" ++ type_name t ++ lit "' object has no attribute '" ++ attr ++ lit "'"
  | KeyMissing k => lit "'" ++ k ++ lit "'"
  | DuplicateArgument name =>
      lit "Ollama.__send_request() got multiple values for argument '"
      ++ name ++ lit "'"
  end.

Definition client : Ollama := __init__ None None None.

(** [{"message": {"content": s}}] *)
Definition chat_body (s : pystr) : pyval :=
  PyDict {[ lit "message" := PyDict {[ lit "content" := PyStr s ]} ]}.

Definition replies (s : pystr) : ChatRequest -> Outcome :=
  fun _ => Passed (JSON (chat_body s)).

Definition answers (v : pyval) : ChatRequest -> Outcome :=
  fun _ => Passed (JSON v).

Definition http_500_text : pystr :=
  lit "500 Server Error: Internal Server Error for url: http://127.0.0.1:11434/api/chat".

(** The endpoint answers HTTP 500: [raise_for_status] raises. *)
Definition http_500 : ChatRequest -> Outcome :=
  fun _ => Refused 500 http_500_text (NotJSON (lit "Expecting value")).

(** [{}] *)
Definition empty_cache : Cache := {| keys := ∅; lists := [] |}.

(** [{"user_123": [{"role": "assistant", "content": "A1"}]}] *)
Definition one_turn_cache : Cache :=
  {| keys := {[ lit "user_123" := 0 ]};
     lists := [[ {| role := assistant; content := lit "A1" |} ]] |}.

(** [{"a": [], "b": [{"role": "user", "content": "hi"}]}] *)
Definition two_sessions : Cache :=
  {| keys := {[ lit "a" := 0; lit "b" := 1 ]};
     lists := [[]; [ {| role := user; content := lit "hi" |} ]] |}.

(** The second call of the example of the source, when the endpoint fails. *)
Definition failing_call : Call :=
  translate_text cpython_text client (lit "And tomorrow?") default_target_lang None
    (Some (lit "user_123")) (Some one_turn_cache) ∅ http_500.

(** A call answered with [{"message": {"content": null}}]. *)
Definition null_content_call : Call :=
  translate_text cpython_text client (lit "Hello") default_target_lang None None None ∅
    (answers (PyDict {[ lit "message" := PyDict {[ lit "content" := PyNone ]} ]})).

(** A call answered with [{"message": null}]. *)
Definition null_message_call : Call :=
  translate_text cpython_text client (lit "Hello") default_target_lang None None None ∅
    (answers (PyDict {[ lit "message" := PyNone ]})).

(** The two calls of the example of the source, on a new session. *)
Definition first_turn : Turn :=
  {| turn_text := lit "What is the weather like today?";
     turn_lang := default_target_lang; turn_context := None;
     turn_kwargs := ∅; turn_net := replies (lit "今天天气怎么样？") |}.

Definition second_turn : Turn :=
  {| turn_text := lit "And tomorrow?";
     turn_lang := default_target_lang; turn_context := None;
     turn_kwargs := ∅; turn_net := replies (lit "那明天呢？") |}.

Definition third_turn : Turn :=
  {| turn_text := lit "Thanks";
     turn_lang := default_target_lang; turn_context := None;
     turn_kwargs := ∅; turn_net := replies (lit " 谢谢 ") |}.



(** [{"models": [{"name": "a"}, {"name": "b"}]}] *)
Definition two_models : pyval :=
  PyDict {[ lit "models" := PyList [ PyDict {[ lit "name" := PyStr (lit "a") ]};
                                      PyDict {[ lit "name" := PyStr (lit "b") ]} ] ]}.

(** [{"a": L, "b": L, "c": [...]}] with one list object [L] under two keys. *)
Definition shared_cache : Cache :=
  {| keys := {[ lit "a" := 0; lit "b" := 0; lit "c" := 1 ]};
     lists := [[ {| role := user; content := lit "hi" |} ];
               [ {| role := user; content := lit "yo" |} ]] |}.

(** [{"user_123": []}]: the entry created by the caller. *)
Definition preseeded_cache : Cache :=
  {| keys := {[ lit "user_123" := 0 ]}; lists := [[]] |}.

(** [raise_for_status] as [requests] documents it: 4xx and 5xx raise. *)
Definition http_is_error (status_code : Z) : bool :=
  ((400 <=? status_code) && (status_code <? 600))%Z.

Definition http_error_text (status_code : Z) : pystr := lit "HTTP error".

End Demo.

(** ** Strings *)

Example lit_ascii : lit "zh" = [122%N; 104%N].
Proof. reflexivity. Qed.

Example lit_cjk : lit "翻译" = [32763%N; 35793%N].
Proof. reflexivity. Qed.

Example strip_example :
  strip (lit "  你好 " ++ nl) = lit "你好".
Proof. reflexivity. Qed.

Lemma lstrip_spec (s : pystr) :
  exists pre, s = pre ++ lstrip s /\ forallb isspace pre = true
              /\ (forall c r, lstrip s = c :: r -> isspace c = false).
Proof.
  induction s as [|c s IH]; simpl.
  - exists []. repeat split; intros; discriminate.
  - destruct (isspace c) eqn:Hc.
    + destruct IH as (pre & Heq & Hpre & Hhd).
      exists (c :: pre). simpl. rewrite Hc, Hpre. split; [congruence|]. auto.
    + exists []. repeat split. intros c' r [= <- _]. exact Hc.
Qed.

(** [strip] removes a run of white space at each end and nothing else, and
    what is left neither starts nor ends with white space. *)
Lemma strip_spec (s : pystr) :
  exists pre post,
    s = pre ++ strip s ++ post
    /\ forallb isspace pre = true /\ forallb isspace post = true
    /\ (forall c r, strip s = c :: r -> isspace c = false)
    /\ (forall c r, strip s = r ++ [c] -> isspace c = false).
Proof.
  destruct (lstrip_spec s) as (pre & Hs & Hpre & Hhd).
  destruct (lstrip_spec (rev (lstrip s))) as (tsop & Hr & Htsop & Hlast).
  exists pre, (rev tsop). unfold strip, rstrip.
  assert (Hmid : lstrip s = rev (lstrip (rev (lstrip s))) ++ rev tsop).
  { rewrite <- rev_app_distr, <- Hr. by rewrite rev_involutive. }
  split; [by rewrite <- Hmid|].
  split; [done|]. split.
  { rewrite forallb_forall in *. intros x Hx. apply Htsop. by apply in_rev. }
  split.
  - intros c r Hc. rewrite Hc in Hmid. simpl in Hmid. eapply Hhd. exact Hmid.
  - intros c r Hc. apply (f_equal (@rev N)) in Hc.
    rewrite rev_involutive, rev_app_distr in Hc. simpl in Hc. eauto.
Qed.

(** ** The session cache *)

Section Sessions.

Import Ollama Steps.

Implicit Types (c : Cache) (sid k : pystr) (r : ref) (l : list Message).

Lemma stored_Some c sid l :
  stored c sid = Some l <->
  exists r, keys c !! sid = Some r /\ lists c !! r = Some l.
Proof.
  unfold stored. destruct (keys c !! sid) as [r|]; split.
  - eauto.
  - by intros (? & [= <-] & ?).
  - done.
  - by intros (? & ? & ?).
Qed.

Lemma get_session_absent sid message c :
  keys c !! sid = None ->
  __get_session sid message c =
    (length (lists c),
     {| keys := keys c;
        lists := lists c ++ [[ {| role := system; content := session_system_prompt |};
                               {| role := user; content := message |} ]] |}).
Proof.
  intros Hk. unfold __get_session, get_or_new. rewrite Hk.
  unfold is_empty, append. simpl.
  rewrite lookup_app_r, Nat.sub_diag by lia. simpl.
  f_equal. f_equal.
  by rewrite !alter_app_r_alt, Nat.sub_diag by lia.
Qed.

Lemma get_session_present sid message c r l :
  keys c !! sid = Some r -> lists c !! r = Some l ->
  __get_session sid message c =
    (r, {| keys := keys c;
           lists := <[r := l ++ seed l ++ [ {| role := user; content := message |} ]]>
                      (lists c) |}).
Proof.
  intros Hk Hl. unfold __get_session, get_or_new. rewrite Hk.
  unfold is_empty, append. cbn [keys lists]. rewrite Hl.
  f_equal. destruct l as [|m l]; simpl; f_equal.
  - rewrite list_alter_alter_eq. apply list_eq. intros i.
    destruct (decide (i = r)) as [->|].
    + rewrite list_lookup_alter_eq, list_lookup_insert_eq, Hl; [done|].
      by eapply lookup_lt_Some.
    + by rewrite list_lookup_alter_ne, list_lookup_insert_ne.
  - apply list_eq. intros i. destruct (decide (i = r)) as [->|].
    + rewrite list_lookup_alter_eq, list_lookup_insert_eq, Hl; [|by eapply lookup_lt_Some].
      done.
    + by rewrite list_lookup_alter_ne, list_lookup_insert_ne.
Qed.

Lemma save_session_absent sid reply c :
  keys c !! sid = None ->
  __save_session sid reply c =
    {| keys := <[sid := length (lists c)]> (keys c);
       lists := lists c ++ [[ {| role := assistant; content := reply |} ]] |}.
Proof.
  intros Hk. unfold __save_session, get_or_new. rewrite Hk.
  unfold append. simpl. f_equal.
  by rewrite alter_app_r_alt, Nat.sub_diag by lia.
Qed.

Lemma save_session_present sid reply c r l :
  keys c !! sid = Some r -> lists c !! r = Some l ->
  __save_session sid reply c =
    {| keys := keys c;
       lists := <[r := l ++ [ {| role := assistant; content := reply |} ]]> (lists c) |}.
Proof.
  intros Hk Hl. unfold __save_session, get_or_new. rewrite Hk.
  unfold append. simpl. f_equal.
  - by apply insert_id.
  - apply list_eq. intros i. destruct (decide (i = r)) as [->|].
    + rewrite list_lookup_alter_eq, list_lookup_insert_eq, Hl; [done|].
      by eapply lookup_lt_Some.
    + by rewrite list_lookup_alter_ne, list_lookup_insert_ne.
Qed.

(** The operations keep every reference of the dict inside the store. *)
Lemma get_session_wf sid message c :
  wf c -> wf (__get_session sid message c).2.
Proof.
  intros Hwf. destruct (keys c !! sid) as [r|] eqn:Hk.
  - destruct (lookup_lt_is_Some_2 (lists c) r (Hwf _ _ Hk)) as [l Hl].
    rewrite (get_session_present _ _ _ _ _ Hk Hl). intros k' r' Hk'. simpl in *.
    rewrite length_insert. eauto.
  - rewrite (get_session_absent _ _ _ Hk). intros k' r' Hk'. simpl in *.
    rewrite length_app. simpl. specialize (Hwf _ _ Hk'). lia.
Qed.

Lemma save_session_wf sid reply c :
  wf c -> wf (__save_session sid reply c).
Proof.
  intros Hwf. destruct (keys c !! sid) as [r|] eqn:Hk.
  - destruct (lookup_lt_is_Some_2 (lists c) r (Hwf _ _ Hk)) as [l Hl].
    rewrite (save_session_present _ _ _ _ _ Hk Hl). intros k' r' Hk'. simpl in *.
    rewrite length_insert. eauto.
  - rewrite (save_session_absent _ _ _ Hk). intros k' r' Hk'. simpl in *.
    rewrite length_app. simpl.
    destruct (decide (k' = sid)) as [->|Hne].
    + rewrite lookup_insert_eq in Hk'. injection Hk' as <-. lia.
    + rewrite lookup_insert_ne in Hk' by done. specialize (Hwf _ _ Hk'). lia.
Qed.

Lemma clear_session_wf sid c : wf c -> wf (clear_session sid c).2.
Proof.
  intros Hwf. unfold clear_session. case_bool_decide; [|done].
  intros k r Hk. simpl in *.
  destruct (decide (k = sid)) as [->|Hne].
  - by rewrite lookup_delete_eq in Hk.
  - rewrite lookup_delete_ne in Hk by done. eauto.
Qed.

End Sessions.

(** ** [translate_text], step by step *)

Section TranslateText.

Import Ollama Steps.

Variable ft : Fault -> pystr.

Implicit Types (self : Ollama) (text tl : pystr) (ctx sid : option pystr)
  (cache : option Cache) (kw : gmap pystr pyval) (net : ChatRequest -> Outcome).

Lemma send_request_clash self msgs kw net :
  is_Some (kw !! lit "messages") ->
  __send_request self msgs kw net
  = (Raise (Interp (DuplicateArgument (lit "messages"))), []).
Proof. intros H. unfold __send_request. by rewrite bool_decide_eq_true_2. Qed.

Lemma send_request_posts self msgs kw net :
  kw !! lit "messages" = None ->
  __send_request self msgs kw net
  = let q := payload self msgs (default (PyBool false) (kw !! lit "stream"))
               (delete (lit "stream") kw) in
    (match net q with
     | Failed desc => Raise (PlainException (lit "请求Ollama API失败: " ++ desc))
     | Passed response => Return response
     | Refused _ desc _ =>
         Raise (PlainException (lit "请求Ollama API失败: " ++ desc))
     | Crashed desc => Raise (LibraryError desc)
     end, [q]).
Proof.
  intros H. unfold __send_request. rewrite bool_decide_eq_false_2; [done|].
  rewrite H. by intros [? ?].
Qed.

(** What is on the wire after a call: nothing if a keyword argument clashes
    with [messages], else the one request [posted]. *)
Lemma translate_text_wire self text tl ctx sid cache kw net :
  wire (translate_text ft self text tl ctx sid cache kw net)
  = if bool_decide (is_Some (kw !! lit "messages")) then []
    else [posted self text tl ctx sid cache kw].
Proof.
  unfold translate_text, posted, assembled, session_of.
  case_bool_decide as Hkw.
  - destruct sid as [[|a s]|], cache as [c|];
      try destruct (__get_session _ _ _) as [session c'];
      rewrite send_request_clash by done; reflexivity.
  - assert (kw !! lit "messages" = None) as Hnone.
    { destruct (kw !! lit "messages"); [|done]. destruct Hkw; eauto. }
    destruct sid as [[|a s]|], cache as [c|];
      try destruct (__get_session _ _ _) as [session c'];
      rewrite send_request_posts by done; cbv beta iota zeta;
      repeat match goal with |- context [match ?x with _ => _ end] => destruct x end;
      reflexivity.
Qed.

Lemma py_in_dict_Some (k : pystr) (d : gmap pystr pyval) v :
  d !! k = Some v -> py_in k (PyDict d) = Return true.
Proof. intros H. simpl. by rewrite bool_decide_eq_true_2. Qed.

Lemma py_in_dict_None (k : pystr) (d : gmap pystr pyval) :
  d !! k = None -> py_in k (PyDict d) = Return false.
Proof.
  intros H. simpl. rewrite bool_decide_eq_false_2; [done|].
  rewrite H. by intros [? ?].
Qed.

Lemma py_getitem_dict_Some (k : pystr) (d : gmap pystr pyval) v :
  d !! k = Some v -> py_getitem (PyDict d) k = Return v.
Proof. intros H. simpl. by rewrite H. Qed.

(** Opens a call: the cases of the session test, the assembled messages and
    the posted request. *)
Ltac open_call sid cache :=
  unfold translate_text, posted, assembled, session_of in *;
  destruct sid as [[|? ?]|], cache as [?|];
  try destruct (__get_session _ _ _) as [? ?];
  cbv beta iota zeta in *; cbn [fst snd app] in *.

Lemma translate_text_clash self text tl ctx sid cache kw net :
  is_Some (kw !! lit "messages") ->
  let call := translate_text ft self text tl ctx sid cache kw net in
  result call
  = Return (false, translate_error ++ ft (DuplicateArgument (lit "messages")))
  /\ cache_after call = (assembled text tl ctx sid cache).2.
Proof.
  intros Hkw call. subst call. open_call sid cache;
    rewrite send_request_clash by done; split; reflexivity.
Qed.

Lemma translate_text_failed self text tl ctx sid cache kw net desc :
  kw !! lit "messages" = None ->
  net (posted self text tl ctx sid cache kw) = Failed desc ->
  let call := translate_text ft self text tl ctx sid cache kw net in
  result call
  = Return (false, translate_error ++ lit "请求Ollama API失败: " ++ desc)
  /\ cache_after call = (assembled text tl ctx sid cache).2.
Proof.
  intros Hkw Hnet call. subst call. open_call sid cache;
    rewrite send_request_posts by done; cbv beta iota zeta;
    rewrite Hnet; split; reflexivity.
Qed.

Lemma translate_text_refused self text tl ctx sid cache kw net status desc body :
  kw !! lit "messages" = None ->
  net (posted self text tl ctx sid cache kw) = Refused status desc body ->
  let call := translate_text ft self text tl ctx sid cache kw net in
  result call
  = Return (false, translate_error ++ lit "请求Ollama API失败: " ++ desc)
  /\ cache_after call = (assembled text tl ctx sid cache).2.
Proof.
  intros Hkw Hnet call. subst call. open_call sid cache;
    rewrite send_request_posts by done; cbv beta iota zeta;
    rewrite Hnet; split; reflexivity.
Qed.

(** An exception of [requests.post] that is not a [RequestException] is not
    wrapped by [__send_request]; the handler of [translate_text] answers
    with its text. *)
Lemma translate_text_crashed self text tl ctx sid cache kw net desc :
  kw !! lit "messages" = None ->
  net (posted self text tl ctx sid cache kw) = Crashed desc ->
  let call := translate_text ft self text tl ctx sid cache kw net in
  result call = Return (false, translate_error ++ desc)
  /\ cache_after call = (assembled text tl ctx sid cache).2.
Proof.
  intros Hkw Hnet call. subst call. open_call sid cache;
    rewrite send_request_posts by done; cbv beta iota zeta;
    rewrite Hnet; split; reflexivity.
Qed.

(** A reply with a string [content]: success with the stripped string; with
    a session, the reply is saved after the messages were assembled. *)
Lemma translate_text_content self text tl ctx sid cache kw net s :
  kw !! lit "messages" = None ->
  chat_reply (net (posted self text tl ctx sid cache kw)) s ->
  let call := translate_text ft self text tl ctx sid cache kw net in
  result call = Return (true, strip s)
  /\ cache_after call
     = match session_of sid cache with
       | Some (k, _) =>
           __save_session k (strip s) <$> (assembled text tl ctx sid cache).2
       | None => cache
       end.
Proof.
  intros Hkw (d & m & Hnet & Hd & Hm) call. subst call. open_call sid cache;
    rewrite send_request_posts by done; cbv beta iota zeta;
    rewrite Hnet; cbn [bind json];
    rewrite (py_in_dict_Some _ _ _ Hd); cbn [bind];
    rewrite (py_getitem_dict_Some _ _ _ Hd); cbn [bind];
    rewrite (py_in_dict_Some _ _ _ Hm); cbn [bind];
    rewrite (py_getitem_dict_Some _ _ _ Hm); cbn [bind py_strip];
    split; reflexivity.
Qed.

(** A reply without [message.content]: the format error, nothing saved. *)
Lemma translate_text_lacks self text tl ctx sid cache kw net :
  kw !! lit "messages" = None ->
  reply_lacks_content (net (posted self text tl ctx sid cache kw)) ->
  let call := translate_text ft self text tl ctx sid cache kw net in
  result call = Return (false, format_error)
  /\ cache_after call = (assembled text tl ctx sid cache).2.
Proof.
  intros Hkw (d & Hnet & [Hd | (m & Hd & Hm)]) call; subst call.
  - open_call sid cache;
      rewrite send_request_posts by done; cbv beta iota zeta;
      rewrite Hnet; cbn [bind json];
      rewrite (py_in_dict_None _ _ Hd); cbn [bind];
      split; reflexivity.
  - open_call sid cache;
      rewrite send_request_posts by done; cbv beta iota zeta;
      rewrite Hnet; cbn [bind json];
      rewrite (py_in_dict_Some _ _ _ Hd); cbn [bind];
      rewrite (py_getitem_dict_Some _ _ _ Hd); cbn [bind];
      rewrite (py_in_dict_None _ _ Hm); cbn [bind];
      split; reflexivity.
Qed.

(** A reply whose [content] is not a string: [strip] raises, the handler
    answers. *)
Lemma translate_text_content_not_str self text tl ctx sid cache kw net d m v :
  kw !! lit "messages" = None ->
  net (posted self text tl ctx sid cache kw) = Passed (JSON (PyDict d)) ->
  d !! lit "message" = Some (PyDict m) ->
  m !! lit "content" = Some v ->
  (forall s, v <> PyStr s) ->
  let call := translate_text ft self text tl ctx sid cache kw net in
  result call
  = Return (false, translate_error ++ ft (NoAttribute (type_of v) (lit "strip")))
  /\ cache_after call = (assembled text tl ctx sid cache).2.
Proof.
  intros Hkw Hnet Hd Hm Hv call. subst call.
  assert (py_strip v = Raise (Interp (NoAttribute (type_of v) (lit "strip"))))
    as Hstrip by (destruct v; try reflexivity; by destruct (Hv s)).
  open_call sid cache;
    rewrite send_request_posts by done; cbv beta iota zeta;
    rewrite Hnet; cbn [bind json];
    rewrite (py_in_dict_Some _ _ _ Hd); cbn [bind];
    rewrite (py_getitem_dict_Some _ _ _ Hd); cbn [bind];
    rewrite (py_in_dict_Some _ _ _ Hm); cbn [bind];
    rewrite (py_getitem_dict_Some _ _ _ Hm); cbn [bind];
    rewrite Hstrip; split; reflexivity.
Qed.

(** Runs the response handling of an opened call on a known response. *)
Ltac run_reply Hkw Hnet :=
  rewrite send_request_posts by exact Hkw; cbv beta iota zeta;
  rewrite Hnet; cbn [bind json py_in py_getitem py_strip];
  repeat match goal with
         | H : _ !! _ = _ |- _ => rewrite H; cbn [bind py_in py_getitem py_strip]
         | |- context [bool_decide ?P] =>
             (rewrite (bool_decide_eq_true_2 P) by eauto)
             || (rewrite (bool_decide_eq_false_2 P) by (by intros [? ?]));
             cbn [bind py_in py_getitem py_strip]
         | |- context [if ?b then _ else _] =>
             destruct b; cbn [bind py_in py_getitem py_strip]
         end.

(** Every outcome of a call: success on a reply with a string [content]
    (and the reply saved when a session is used); the format error; or the
    handler of [except Exception], with the text of what was raised. In the
    last two the cache is as the assembling of the messages left it. *)
Lemma translate_text_cases self text tl ctx sid cache kw net :
  let call := translate_text ft self text tl ctx sid cache kw net in
  (exists s, kw !! lit "messages" = None
             /\ chat_reply (net (posted self text tl ctx sid cache kw)) s
             /\ result call = Return (true, strip s)
             /\ cache_after call
                = match session_of sid cache with
                  | Some (k, _) =>
                      __save_session k (strip s)
                        <$> (assembled text tl ctx sid cache).2
                  | None => cache
                  end)
  \/ (result call = Return (false, format_error)
      /\ cache_after call = (assembled text tl ctx sid cache).2)
  \/ (exists e, result call = Return (false, translate_error ++ str ft e)
                /\ cache_after call = (assembled text tl ctx sid cache).2).
Proof.
  intros call.
  destruct (kw !! lit "messages") as [clash|] eqn:Hkw.
  { right; right. exists (Interp (DuplicateArgument (lit "messages"))).
    apply translate_text_clash. rewrite Hkw. eauto. }
  destruct (net (posted self text tl ctx sid cache kw))
    as [desc|[desc|v]|status desc body|desc] eqn:Hnet.
  { right; right. exists (PlainException (lit "请求Ollama API失败: " ++ desc)).
    by apply translate_text_failed. }
  3: { right; right. exists (PlainException (lit "请求Ollama API失败: " ++ desc)).
       by eapply translate_text_refused. }
  3: { right; right. exists (LibraryError desc).
       by apply translate_text_crashed. }
  { right; right. exists (JSONDecodeError desc). subst call.
    open_call sid cache; run_reply Hkw Hnet; split; reflexivity. }
  destruct v as [| | | | s0 | l0 | d];
    try (right; right; eexists; subst call;
         open_call sid cache; run_reply Hkw Hnet; split; reflexivity).
  { subst call.
    open_call sid cache; run_reply Hkw Hnet;
      first [ right; left; split; reflexivity
            | right; right; eexists; split; reflexivity ]. }
  { subst call.
    open_call sid cache; run_reply Hkw Hnet;
      first [ right; left; split; reflexivity
            | right; right; eexists; split; reflexivity ]. }
  destruct (d !! lit "message") as [mv|] eqn:Hd.
  2: { right; left. apply translate_text_lacks; [done|].
       exists d. rewrite Hnet. eauto. }
  destruct mv as [| | | | s0 | l0 | m];
    try (right; right; eexists; subst call;
         open_call sid cache; run_reply Hkw Hnet; split; reflexivity).
  { subst call.
    open_call sid cache; run_reply Hkw Hnet;
      first [ right; left; split; reflexivity
            | right; right; eexists; split; reflexivity ]. }
  { subst call.
    open_call sid cache; run_reply Hkw Hnet;
      first [ right; left; split; reflexivity
            | right; right; eexists; split; reflexivity ]. }
  destruct (m !! lit "content") as [cv|] eqn:Hm.
  2: { right; left. apply translate_text_lacks; [done|].
       exists d. rewrite Hnet. split; [done|]. right. eauto. }
  assert ((exists s, cv = PyStr s) \/ (forall s, cv <> PyStr s)) as [[s ->]|Hcv]
    by (destruct cv; eauto; by right).
  - left. exists s. split; [done|].
    split; [by exists d, m|].
    subst call. apply translate_text_content; [done|]. exists d, m. by rewrite Hnet.
  - right; right. exists (Interp (NoAttribute (type_of cv) (lit "strip"))).
    subst call. eapply translate_text_content_not_str; eauto.
Qed.

(** The call always returns a pair: nothing raised inside escapes. *)
Lemma translate_text_returns self text tl ctx sid cache kw net :
  exists ok payload,
    result (translate_text ft self text tl ctx sid cache kw net)
    = Return (ok, payload).
Proof.
  destruct (translate_text_cases self text tl ctx sid cache kw net)
    as [(s & _ & _ & -> & _) | [[-> _] | (e & -> & _)]]; eauto.
Qed.

End TranslateText.

(** ** Properties of the client *)

Section Claims.

Import Ollama Steps Demo.

Implicit Types (ft : Fault -> pystr) (self : Ollama) (text tl : pystr)
  (ctx sid : option pystr) (cache : option Cache) (kw : gmap pystr pyval)
  (net : ChatRequest -> Outcome) (c : Cache) (k : pystr).

Lemma wire_posted ft self text tl ctx sid cache kw net q :
  wire (translate_text ft self text tl ctx sid cache kw net) = [q] ->
  kw !! lit "messages" = None /\ q = posted self text tl ctx sid cache kw.
Proof.
  rewrite translate_text_wire. case_bool_decide as Hkw; [done|].
  intros [= <-]. split; [|done].
  destruct (kw !! lit "messages"); [|done]. destruct Hkw; eauto.
Qed.

Lemma posted_wire ft self text tl ctx sid cache kw net :
  kw !! lit "messages" = None ->
  wire (translate_text ft self text tl ctx sid cache kw net)
  = [posted self text tl ctx sid cache kw].
Proof.
  intros Hkw. rewrite translate_text_wire, bool_decide_eq_false_2; [done|].
  rewrite Hkw. by intros [? ?].
Qed.

Lemma assembled_no_session text tl ctx sid cache :
  session_of sid cache = None ->
  assembled text tl ctx sid cache
  = ([ {| role := system; content := system_prompt tl |};
       {| role := user; content := user_message text ctx |} ], cache).
Proof. intros H. unfold assembled. by rewrite H. Qed.

Lemma assembled_absent text tl ctx sid cache k c :
  session_of sid cache = Some (k, c) -> keys c !! k = None ->
  assembled text tl ctx sid cache
  = ([ {| role := system; content := session_system_prompt |};
       {| role := user; content := user_message text ctx |} ],
     Some {| keys := keys c;
             lists := lists c
                      ++ [[ {| role := system; content := session_system_prompt |};
                            {| role := user; content := user_message text ctx |} ]] |}).
Proof.
  intros H Hk. unfold assembled. rewrite H, (get_session_absent _ _ _ Hk).
  cbn [fst snd]. f_equal. unfold read. cbn [lists].
  by rewrite lookup_app_r, Nat.sub_diag by lia.
Qed.

Lemma assembled_present text tl ctx sid cache k c r l :
  session_of sid cache = Some (k, c) ->
  keys c !! k = Some r -> lists c !! r = Some l ->
  assembled text tl ctx sid cache
  = (l ++ seed l ++ [ {| role := user; content := user_message text ctx |} ],
     Some {| keys := keys c;
             lists := <[r := l ++ seed l
                             ++ [ {| role := user; content := user_message text ctx |} ]]>
                        (lists c) |}).
Proof.
  intros H Hk Hl. unfold assembled. rewrite H, (get_session_present _ _ _ _ _ Hk Hl).
  cbn [fst snd]. f_equal. unfold read. cbn [lists].
  rewrite list_lookup_insert_eq; [done|]. by eapply lookup_lt_Some.
Qed.

Lemma session_of_Some sid cache k c :
  session_of sid cache = Some (k, c) <-> sid = Some k /\ k <> [] /\ cache = Some c.
Proof.
  unfold session_of. split.
  - destruct sid as [[|a s]|], cache as [c'|]; try done. by intros [= <- <-].
  - intros (-> & Hk & ->). by destruct k.
Qed.

(** With a cache whose references are valid, the request ends with the user
    message of the call. *)
Lemma posted_ends_with_user_message self text tl ctx sid cache kw :
  (forall c, cache = Some c -> wf c) ->
  last (messages (posted self text tl ctx sid cache kw))
  = Some {| role := user; content := user_message text ctx |}.
Proof.
  intros Hwf. unfold posted. cbn [messages payload].
  destruct (session_of sid cache) as [[k c]|] eqn:Hs.
  - pose proof Hs as (-> & Hk & ->)%session_of_Some.
    destruct (keys c !! k) as [r|] eqn:Hr.
    + destruct (lookup_lt_is_Some_2 (lists c) r) as [l Hl]; [by eapply Hwf|].
      rewrite (assembled_present _ _ _ _ _ _ _ _ _ Hs Hr Hl). cbn [fst].
      by rewrite !app_assoc, last_snoc.
    + by rewrite (assembled_absent _ _ _ _ _ _ _ Hs Hr).
  - by rewrite (assembled_no_session _ _ _ _ _ Hs).
Qed.

(** C9. [clear_session] returns no value and does not raise. Afterwards the
    dict has no entry for the session id, every other key has the entry it
    had, and no list object has changed; when the id had no entry, the cache
    is exactly as before. *)
Theorem clear_session_removes_only_its_entry k c :
  (clear_session k c).1 = Return tt
  /\ keys (clear_session k c).2 !! k = None
  /\ stored (clear_session k c).2 k = None
  /\ (forall k', k' <> k ->
        keys (clear_session k c).2 !! k' = keys c !! k'
        /\ stored (clear_session k c).2 k' = stored c k')
  /\ lists (clear_session k c).2 = lists c
  /\ (keys c !! k = None -> (clear_session k c).2 = c).
Proof.
  unfold clear_session, stored. case_bool_decide as Hin; cbn [fst snd keys lists].
  - rewrite lookup_delete_eq. repeat split; try done.
    + by rewrite lookup_delete_ne.
    + by rewrite lookup_delete_ne.
    + intros Hk. rewrite Hk in Hin. by destruct Hin.
  - assert (keys c !! k = None) as Hk.
    { destruct (keys c !! k); [|done]. destruct Hin; eauto. }
    rewrite Hk. repeat split; done.
Qed.

Lemma clear_session_removes_only_its_entry_witness :
  stored (clear_session (lit "a") two_sessions).2 (lit "a") = None
  /\ stored (clear_session (lit "a") two_sessions).2 (lit "b")
     = Some [ {| role := user; content := lit "hi" |} ]
  /\ (clear_session (lit "zz") two_sessions).2 = two_sessions.
Proof.
  split; [apply clear_session_removes_only_its_entry|].
  split.
  - destruct (clear_session_removes_only_its_entry (lit "a") two_sessions)
      as (_ & _ & _ & Hother & _).
    destruct (Hother (lit "b")) as [_ ->]; [by vm_compute|reflexivity].
  - apply clear_session_removes_only_its_entry. reflexivity.
Defined.

(** C6, as the spec words it, fails for a context that is given but empty:
    [translate_text("Hello", context="")] builds the message of a call
    without context. *)
Lemma empty_context_is_not_prepended :
  user_message (lit "Hello") (Some []) = text_label ++ lit "Hello"
  /\ ~ (context_label ++ []) `prefix_of` user_message (lit "Hello") (Some []).
Proof.
  split; [reflexivity|]. intros [rest Hrest]. vm_compute in Hrest. discriminate.
Qed.

(** C6, amended. The user message starts with the context label followed by
    the context when a non-empty context is given; it is the text label
    followed by the text when the context is [None] or empty. The labels are
    the literals of the source, [context_label] and [text_label]. The user
    message is the content of the last message of every request the call
    posts. *)
Theorem user_message_starts_with_label text ctx :
  (forall given : pystr, ctx = Some given -> given <> [] ->
     (context_label ++ given) `prefix_of` user_message text ctx
     /\ user_message text ctx = context_label ++ given ++ nl ++ nl ++ text_label ++ text)
  /\ (ctx = None \/ ctx = Some [] ->
      (text_label ++ text) `prefix_of` user_message text ctx
      /\ user_message text ctx = text_label ++ text)
  /\ (forall ft self tl sid cache kw net q,
        (forall c, cache = Some c -> wf c) ->
        wire (translate_text ft self text tl ctx sid cache kw net) = [q] ->
        last (messages q)
        = Some {| role := user; content := user_message text ctx |}).
Proof.
  split; [|split].
  - intros given -> Hgiven. destruct given as [|a given]; [done|]. split; [|done].
    exists (nl ++ nl ++ text_label ++ text). unfold user_message.
    by rewrite <- !app_assoc.
  - intros [-> | ->]; (split; [|done]); exists []; by rewrite app_nil_r.
  - intros ft self tl sid cache kw net q Hwf Hq. apply wire_posted in Hq as [_ ->].
    by apply posted_ends_with_user_message.
Qed.

Lemma user_message_starts_with_label_witness :
  (context_label ++ lit "Weather talk")
    `prefix_of` user_message (lit "And tomorrow?") (Some (lit "Weather talk"))
  /\ user_message (lit "Hello") None = text_label ++ lit "Hello"
  /\ last (messages (posted client (lit "Hello") default_target_lang
                       (Some (lit "Greeting")) (Some (lit "user_123"))
                       (Some one_turn_cache) ∅))
     = Some {| role := user;
               content := user_message (lit "Hello") (Some (lit "Greeting")) |}.
Proof.
  split; [|split].
  - apply (user_message_starts_with_label (lit "And tomorrow?")
             (Some (lit "Weather talk"))); [reflexivity | by vm_compute].
  - apply (user_message_starts_with_label (lit "Hello") None). by left.
  - destruct (user_message_starts_with_label (lit "Hello") (Some (lit "Greeting")))
      as (_ & _ & Hlast).
    apply (Hlast cpython_text client default_target_lang (Some (lit "user_123"))
             (Some one_turn_cache) ∅ (replies (lit "你好"))); [|reflexivity].
    intros c [= <-] k r. unfold one_turn_cache. cbn [keys lists length].
    intros [<- <-]%lookup_singleton_Some. lia.
Defined.

End Claims.

Section Requests.

Import Ollama Steps Demo.

Implicit Types (ft : Fault -> pystr) (self : Ollama) (text tl : pystr)
  (ctx sid : option pystr) (cache : option Cache) (kw : gmap pystr pyval)
  (net : ChatRequest -> Outcome) (c : Cache) (k : pystr).

Lemma option_keys_distinct :
  lit "temperature" <> lit "top_p"
  /\ lit "temperature" <> lit "stream" /\ lit "top_p" <> lit "stream".
Proof. repeat split; by vm_compute. Qed.

Lemma default_options_lookup (key : pystr) :
  default_options !! key
  = if decide (key = lit "temperature") then Some (PyFloat 0.1)
    else if decide (key = lit "top_p") then Some (PyFloat 0.9)
    else None.
Proof.
  destruct option_keys_distinct as (Htt & _).
  unfold default_options. repeat case_decide; subst.
  - by rewrite lookup_insert_eq.
  - rewrite lookup_insert_ne by done. by rewrite lookup_singleton_eq.
  - rewrite lookup_insert_ne by done. by rewrite lookup_singleton_ne.
Qed.



(** C10. With [session_id=""] and a cache that is not [None], the call takes
    the branch without session: whatever the response, the cache is returned
    as it was given, and the request it posts (it posts one unless a keyword
    argument is named [messages]) carries the two messages built in the call,
    the system prompt and the user message. *)
Theorem empty_session_id_uses_no_session ft self text tl ctx c kw net :
  let call := translate_text ft self text tl ctx (Some []) (Some c) kw net in
  cache_after call = Some c
  /\ (forall q, wire call = [q] ->
        messages q = [ {| role := system; content := system_prompt tl |};
                       {| role := user; content := user_message text ctx |} ])
  /\ (kw !! lit "messages" = None -> exists q, wire call = [q]).
Proof.
  intros call. subst call. split; [|split].
  - destruct (translate_text_cases ft self text tl ctx (Some []) (Some c) kw net)
      as [(s & _ & _ & _ & ->) | [[_ ->] | (e & _ & ->)]]; reflexivity.
  - by intros q [_ ->]%wire_posted.
  - intros Hkw. eexists. by apply posted_wire.
Qed.

Lemma empty_session_id_uses_no_session_witness :
  cache_after (translate_text cpython_text client (lit "Hello") default_target_lang
                 None (Some []) (Some one_turn_cache) ∅ (replies (lit "你好")))
  = Some one_turn_cache
  /\ exists q,
      wire (translate_text cpython_text client (lit "Hello") default_target_lang
              None (Some []) (Some one_turn_cache) ∅ (replies (lit "你好"))) = [q].
Proof.
  split.
  - apply (empty_session_id_uses_no_session cpython_text client).
  - apply (empty_session_id_uses_no_session cpython_text client). reflexivity.
Defined.

End Requests.

(** ** Calls with a session *)

Section SessionCalls.

Import Ollama Steps Demo.

Implicit Types (ft : Fault -> pystr) (self : Ollama) (text tl : pystr)
  (ctx sid : option pystr) (cache : option Cache) (kw : gmap pystr pyval)
  (net : ChatRequest -> Outcome) (c : Cache) (k : pystr) (l : list Message).

Lemma count_role_app (r : Role) l1 l2 :
  count_role r (l1 ++ l2) = count_role r l1 + count_role r l2.
Proof. unfold count_role. by rewrite filter_app, length_app. Qed.

Lemma count_role_seed l :
  count_role assistant (seed l) = 0 /\ count_role user (seed l) = 0
  /\ count_role system (seed l) = if l is [] then 1 else 0.
Proof. by destruct l. Qed.

(** A call on a session that has an entry works on the stored list itself:
    the user message is appended to it (after the fixed system message when
    it was empty), and on success the stripped reply after that. No key is
    added or removed, and the lists of other references do not change. *)
Lemma translate_text_existing ft self text tl ctx sid cache kw net k c l :
  session_of sid cache = Some (k, c) ->
  stored c k = Some l ->
  let call := translate_text ft self text tl ctx sid cache kw net in
  let turn := l ++ seed l ++ [ {| role := user; content := user_message text ctx |} ] in
  exists c', cache_after call = Some c'
    /\ keys c' = keys c
    /\ (forall k', keys c !! k' <> keys c !! k -> stored c' k' = stored c k')
    /\ ((exists s, kw !! lit "messages" = None
                  /\ chat_reply (net (posted self text tl ctx sid cache kw)) s
                  /\ result call = Return (true, strip s)
                  /\ stored c' k
                     = Some (turn ++ [ {| role := assistant; content := strip s |} ]))
        \/ ((exists msg, result call = Return (false, msg))
            /\ stored c' k = Some turn)).
Proof.
  intros Hs (r & Hr & Hl)%stored_Some call turn.
  pose proof (assembled_present text tl ctx _ _ _ _ _ _ Hs Hr Hl) as Ha.
  fold turn in Ha.
  set (c1 := {| keys := keys c; lists := <[r := turn]> (lists c) |}) in Ha.
  assert (Hr1 : keys c1 !! k = Some r) by done.
  assert (Hl1 : lists c1 !! r = Some turn).
  { cbn. rewrite list_lookup_insert_eq; [done|]. by eapply lookup_lt_Some. }
  assert (Hother : forall (c2 : Cache) x, keys c2 = keys c ->
            lists c2 = <[r := x]> (lists c) ->
            forall k', keys c !! k' <> keys c !! k -> stored c2 k' = stored c k').
  { intros c2 x Hk2 Hl2 k' Hne. unfold stored. rewrite Hk2, Hl2.
    destruct (keys c !! k') as [r'|]; [|done].
    rewrite list_lookup_insert_ne; [done|]. congruence. }
  destruct (translate_text_cases ft self text tl ctx sid cache kw net)
    as [(s & Hkw & Hreply & Hres & Hcache) | [[Hres Hcache] | (e & Hres & Hcache)]];
    fold call in Hres, Hcache; rewrite ?Hs, Ha in Hcache; cbn [snd fmap option_fmap option_map] in Hcache.
  - rewrite (save_session_present _ _ _ _ _ Hr1 Hl1) in Hcache.
    eexists. split; [exact Hcache|]. cbn [keys lists].
    split; [done|]. split.
    + apply (Hother _ (turn ++ [ {| role := assistant; content := strip s |} ])); [done|].
      cbn. by rewrite list_insert_insert_eq.
    + left. exists s. repeat (split; [done|]).
      unfold stored. cbn. rewrite Hr, list_insert_insert_eq, list_lookup_insert_eq; [done|].
      by eapply lookup_lt_Some.
  - exists c1. split; [done|]. split; [done|]. split; [by eapply Hother|].
    right. split; [eauto|]. unfold stored. by rewrite Hr1.
  - exists c1. split; [done|]. split; [done|]. split; [by eapply Hother|].
    right. split; [eauto|]. unfold stored. by rewrite Hr1.
Qed.

(** A call on a session id that has no entry works on a list the dict does
    not refer to, with the fixed system message and the user message. On
    success [__save_session] finds no entry either, and stores a second new
    list, which holds the reply alone. Otherwise the dict stays without
    entry for the id. *)
Lemma translate_text_fresh ft self text tl ctx sid cache kw net k c :
  session_of sid cache = Some (k, c) ->
  keys c !! k = None ->
  let call := translate_text ft self text tl ctx sid cache kw net in
  (forall q, wire call = [q] ->
     messages q = [ {| role := system; content := session_system_prompt |};
                    {| role := user; content := user_message text ctx |} ])
  /\ (wf c -> forall k', k' <> k -> stored_after call k' = stored c k')
  /\ ((exists s, kw !! lit "messages" = None
                /\ chat_reply (net (posted self text tl ctx sid cache kw)) s
                /\ result call = Return (true, strip s)
                /\ stored_after call k
                   = Some [ {| role := assistant; content := strip s |} ])
      \/ ((exists msg, result call = Return (false, msg))
          /\ stored_after call k = None)).
Proof.
  intros Hs Hk call.
  pose proof (assembled_absent text tl ctx _ _ _ _ Hs Hk) as Ha.
  set (fresh := [ {| role := system; content := session_system_prompt |};
                  {| role := user; content := user_message text ctx |} ]) in *.
  set (c1 := {| keys := keys c; lists := lists c ++ [fresh] |}) in Ha.
  assert (Hk1 : keys c1 !! k = None) by done.
  assert (Hold : wf c -> forall k' (more : list (list Message)),
            match keys c !! k' with
            | Some r => (lists c ++ more) !! r
            | None => None
            end = stored c k').
  { intros Hwf k' more. unfold stored. destruct (keys c !! k') as [r|] eqn:Hr; [|done].
    apply lookup_app_l. by eapply Hwf. }
  split.
  { intros q [_ ->]%wire_posted. unfold posted. by rewrite Ha. }
  unfold stored_after, stored_in.
  destruct (translate_text_cases ft self text tl ctx sid cache kw net)
    as [(s & Hkw & Hreply & Hres & Hcache) | [[Hres Hcache] | (e & Hres & Hcache)]];
    fold call in Hres, Hcache; rewrite ?Hs, Ha in Hcache;
    cbn [snd fmap option_fmap option_map] in Hcache; rewrite Hcache.
  - rewrite (save_session_absent _ _ _ Hk1). split.
    + intros Hwf k' Hne. unfold stored at 1. cbn [keys lists c1].
      rewrite lookup_insert_ne by done. rewrite <- app_assoc. by apply Hold.
    + left. exists s. repeat (split; [done|]).
      unfold stored. cbn [keys lists c1]. rewrite lookup_insert_eq.
      rewrite lookup_app_r by done. by rewrite Nat.sub_diag.
  - split.
    + intros Hwf k' Hne. unfold stored at 1. cbn [keys lists c1]. by apply Hold.
    + right. split; [eauto|]. unfold stored. by rewrite Hk1.
  - split.
    + intros Hwf k' Hne. unfold stored at 1. cbn [keys lists c1]. by apply Hold.
    + right. split; [eauto|]. unfold stored. by rewrite Hk1.
Qed.

End SessionCalls.

Section SessionClaims.

Import Ollama Steps Demo.

Implicit Types (ft : Fault -> pystr) (self : Ollama) (text tl : pystr)
  (ctx sid : option pystr) (cache : option Cache) (kw : gmap pystr pyval)
  (net : ChatRequest -> Outcome) (c : Cache) (k : pystr) (l : list Message).

Lemma chat_reply_inj (o : Outcome) (s1 s2 : pystr) :
  chat_reply o s1 -> chat_reply o s2 -> s1 = s2.
Proof.
  intros (d1 & m1 & -> & Hd1 & Hm1) (d2 & m2 & [= <-] & Hd2 & Hm2).
  rewrite Hd1 in Hd2. injection Hd2 as <-. rewrite Hm1 in Hm2. by injection Hm2.
Qed.

Lemma replies_chat_reply (s : pystr) q : chat_reply (replies s q) s.
Proof. eexists _, _. split; [reflexivity|]. split; reflexivity. Qed.

Lemma session_of_truthy k c : k <> [] -> session_of (Some k) (Some c) = Some (k, c).
Proof. intros Hk. by apply session_of_Some. Qed.

(** A successful call on a session without entry. *)
Lemma fresh_call_succeeds ft self text tl ctx kw net k c s :
  k <> [] -> keys c !! k = None ->
  kw !! lit "messages" = None -> (forall q, chat_reply (net q) s) ->
  let call := translate_text ft self text tl ctx (Some k) (Some c) kw net in
  result call = Return (true, strip s)
  /\ stored_after call k = Some [ {| role := assistant; content := strip s |} ]
  /\ map messages (wire call)
     = [[ {| role := system; content := session_system_prompt |};
          {| role := user; content := user_message text ctx |} ]].
Proof.
  intros Hk Hnone Hkw Hnet call.
  destruct (translate_text_fresh ft self text tl ctx (Some k) (Some c) kw net k c
              (session_of_truthy _ _ Hk) Hnone) as (Hmsgs & _ & Hcases).
  fold call in Hmsgs, Hcases.
  destruct (translate_text_content ft self text tl ctx (Some k) (Some c) kw net s
              Hkw (Hnet _)) as [Hres _]. fold call in Hres.
  split; [done|]. split.
  - destruct Hcases as [(s' & _ & Hs' & _ & Hst) | [[msg Hmsg] _]].
    + by rewrite (chat_reply_inj _ _ _ (Hnet _) Hs').
    + rewrite Hres in Hmsg. discriminate.
  - subst call. rewrite posted_wire by done. cbn [map]. f_equal.
    apply Hmsgs. by apply posted_wire.
Qed.

(** A successful call on a session that has an entry. *)
Lemma existing_call_succeeds ft self text tl ctx kw net k c l s :
  k <> [] -> stored c k = Some l ->
  kw !! lit "messages" = None -> (forall q, chat_reply (net q) s) ->
  let call := translate_text ft self text tl ctx (Some k) (Some c) kw net in
  let turn := l ++ seed l ++ [ {| role := user; content := user_message text ctx |} ] in
  result call = Return (true, strip s)
  /\ stored_after call k
     = Some (turn ++ [ {| role := assistant; content := strip s |} ])
  /\ map messages (wire call) = [turn]
  /\ stored_in (assembled text tl ctx (Some k) (Some c)).2 k = Some turn.
Proof.
  intros Hk Hl Hkw Hnet call turn.
  assert (stored_in (assembled text tl ctx (Some k) (Some c)).2 k = Some turn)
    as Hbefore.
  { pose proof Hl as (r & Hr & Hlr)%stored_Some.
    rewrite (assembled_present _ _ _ _ _ _ _ _ _ (session_of_truthy _ _ Hk) Hr Hlr).
    unfold stored_in, stored. cbn [snd keys lists]. rewrite Hr.
    rewrite list_lookup_insert_eq; [done|]. by eapply lookup_lt_Some. }
  destruct (translate_text_existing ft self text tl ctx (Some k) (Some c) kw net k c l
              (session_of_truthy _ _ Hk) Hl) as (c' & Hc' & _ & _ & Hcases).
  fold call in Hc'. fold call turn in Hcases.
  destruct (translate_text_content ft self text tl ctx (Some k) (Some c) kw net s
              Hkw (Hnet _)) as [Hres _]. fold call in Hres.
  split; [done|]. split; [|split; [|done]].
  - unfold stored_after. rewrite Hc'. cbn [stored_in].
    destruct Hcases as [(s' & _ & Hs' & _ & Hst) | [[msg Hmsg] _]].
    + by rewrite (chat_reply_inj _ _ _ (Hnet _) Hs').
    + rewrite Hres in Hmsg. discriminate.
  - subst call. rewrite posted_wire by done. cbn [map]. f_equal.
    unfold posted. cbn [messages payload].
    apply stored_Some in Hl as (r & Hr & Hl).
    by rewrite (assembled_present _ _ _ _ _ _ _ _ _ (session_of_truthy _ _ Hk) Hr Hl).
Qed.

(** C1, on the code. Two successful calls on a session id that has no entry:
    the first stores a list with the first reply alone, since the list that
    received the system and user messages was never put in the dict; the
    second request carries that reply and the second user message, which is
    also the stored sequence once the second call has assembled its messages,
    just before the second reply is appended (two messages); at the end the
    stored sequence has three messages. *)
Theorem fresh_session_stores_three_after_two_calls
    ft self c k text1 tl1 ctx1 kw1 net1 s1 text2 tl2 ctx2 kw2 net2 s2 :
  k <> [] -> keys c !! k = None ->
  kw1 !! lit "messages" = None -> kw2 !! lit "messages" = None ->
  (forall q, chat_reply (net1 q) s1) -> (forall q, chat_reply (net2 q) s2) ->
  let call1 := translate_text ft self text1 tl1 ctx1 (Some k) (Some c) kw1 net1 in
  let call2 := translate_text ft self text2 tl2 ctx2 (Some k) (cache_after call1)
                 kw2 net2 in
  let reply1 := {| role := assistant; content := strip s1 |} in
  let user2 := {| role := user; content := user_message text2 ctx2 |} in
  let reply2 := {| role := assistant; content := strip s2 |} in
  result call1 = Return (true, strip s1)
  /\ stored_after call1 k = Some [reply1]
  /\ result call2 = Return (true, strip s2)
  /\ map messages (wire call2) = [[reply1; user2]]
  /\ stored_in (assembled text2 tl2 ctx2 (Some k) (cache_after call1)).2 k
     = Some [reply1; user2]
  /\ stored_after call2 k = Some [reply1; user2; reply2].
Proof.
  intros Hk Hnone Hkw1 Hkw2 Hnet1 Hnet2 call1 call2 reply1 user2 reply2.
  destruct (fresh_call_succeeds ft self text1 tl1 ctx1 kw1 net1 k c s1
              Hk Hnone Hkw1 Hnet1) as (Hres1 & Hst1 & _).
  fold call1 in Hres1, Hst1. split; [done|]. split; [done|].
  unfold stored_after, stored_in in Hst1. subst call2.
  destruct (cache_after call1) as [c1|]; [|done].
  destruct (existing_call_succeeds ft self text2 tl2 ctx2 kw2 net2 k c1 [reply1] s2
              Hk Hst1 Hkw2 Hnet2) as (Hres2 & Hst2 & Hwire2 & Hbefore2).
  done.
Qed.

Lemma fresh_session_stores_three_after_two_calls_witness :
  stored_in (converse cpython_text client (Some (lit "user_123")) (Some empty_cache)
               [first_turn; second_turn]) (lit "user_123")
  = Some [ {| role := assistant; content := lit "今天天气怎么样？" |};
           {| role := user; content := text_label ++ lit "And tomorrow?" |};
           {| role := assistant; content := lit "那明天呢？" |} ].
Proof.
  destruct (fresh_session_stores_three_after_two_calls cpython_text client empty_cache
              (lit "user_123")
              (turn_text first_turn) (turn_lang first_turn) (turn_context first_turn)
              (turn_kwargs first_turn) (turn_net first_turn) (lit "今天天气怎么样？")
              (turn_text second_turn) (turn_lang second_turn) (turn_context second_turn)
              (turn_kwargs second_turn) (turn_net second_turn) (lit "那明天呢？"))
    as (_ & _ & _ & _ & _ & Hstored).
  - by vm_compute.
  - reflexivity.
  - reflexivity.
  - reflexivity.
  - apply replies_chat_reply.
  - apply replies_chat_reply.
  - vm_compute in Hstored. vm_compute. exact Hstored.
Defined.

(** Later successful calls only append user messages and replies. *)
Lemma later_turns_append ft self k turns :
  k <> [] -> Forall answered turns ->
  forall c l, stored c k = Some l -> l <> [] ->
  exists l', stored_in (converse ft self (Some k) (Some c) turns) k = Some (l ++ l')
             /\ count_role system l' = 0
             /\ length l' = 2 * length turns.
Proof.
  intros Hk Hturns. induction Hturns as [|t turns [Hkw [s Hnet]] _ IH]; intros c l Hl Hne.
  - exists []. by rewrite app_nil_r.
  - destruct (existing_call_succeeds ft self (turn_text t) (turn_lang t)
                (turn_context t) (turn_kwargs t) (turn_net t) k c l s Hk Hl Hkw Hnet)
      as (_ & Hst & _).
    cbn [converse]. unfold call_of.
    unfold stored_after, stored_in in Hst.
    destruct (cache_after _) as [c'|]; [|done].
    destruct l as [|m l]; [done|]. cbn [seed] in Hst.
    destruct (IH c' _ Hst) as (l' & Hl' & Hcount & Hlen); [by destruct l|].
    eexists ([ _; _ ] ++ l'). split; [|split].
    + rewrite Hl'. f_equal. by rewrite <- !app_assoc.
    + by rewrite count_role_app, Hcount.
    + rewrite length_app, Hlen. cbn [length]. lia.
Qed.

(** C2, on the code. After any number (at least one) of successful calls on
    a session id that had no entry, the stored sequence holds no system
    message at all: the first call stores the first reply alone, and each
    later call appends a user message and a reply. Its length is one less
    than twice the number of calls. *)
Theorem fresh_session_never_stores_a_system_message ft self c k turns :
  k <> [] -> keys c !! k = None -> turns <> [] -> Forall answered turns ->
  exists l, stored_in (converse ft self (Some k) (Some c) turns) k = Some l
            /\ count_role system l = 0
            /\ length l = 2 * length turns - 1.
Proof.
  intros Hk Hnone Hne Hturns.
  destruct Hturns as [|t turns [Hkw [s Hnet]] Hturns]; [done|].
  destruct (fresh_call_succeeds ft self (turn_text t) (turn_lang t)
              (turn_context t) (turn_kwargs t) (turn_net t) k c s Hk Hnone Hkw Hnet)
    as (_ & Hst & _).
  cbn [converse]. unfold call_of.
  unfold stored_after, stored_in in Hst.
  destruct (cache_after _) as [c'|]; [|done].
  destruct (later_turns_append ft self k turns Hk Hturns c' _ Hst) as (l' & Hl' & Hcount & Hlen);
    [done|].
  eexists. split; [exact Hl'|]. split.
  - by rewrite count_role_app, Hcount.
  - rewrite length_app, Hlen. cbn [length]. lia.
Qed.

Lemma answered_replies text tl ctx (s : pystr) :
  answered {| turn_text := text; turn_lang := tl; turn_context := ctx;
              turn_kwargs := ∅; turn_net := replies s |}.
Proof. split; [reflexivity|]. exists s. apply replies_chat_reply. Qed.

Lemma fresh_session_never_stores_a_system_message_witness :
  exists l,
    stored_in (converse cpython_text client (Some (lit "user_123")) (Some empty_cache)
                 [first_turn; second_turn; third_turn]) (lit "user_123") = Some l
    /\ count_role system l = 0 /\ length l = 5.
Proof.
  apply (fresh_session_never_stores_a_system_message cpython_text client empty_cache
           (lit "user_123") [first_turn; second_turn; third_turn]).
  - by vm_compute.
  - reflexivity.
  - done.
  - repeat constructor; apply answered_replies.
Defined.

(** C3, as the spec words it, fails when the session already has an entry:
    the user message was appended to the stored list before the request was
    posted, and it stays there when the POST fails. *)
Lemma failed_post_leaves_the_user_message :
  result failing_call
  = Return (false, translate_error ++ lit "请求Ollama API失败: " ++ http_500_text)
  /\ stored one_turn_cache (lit "user_123")
     = Some [ {| role := assistant; content := lit "A1" |} ]
  /\ stored_after failing_call (lit "user_123")
     = Some [ {| role := assistant; content := lit "A1" |};
              {| role := user; content := text_label ++ lit "And tomorrow?" |} ]
  /\ stored_after failing_call (lit "user_123")
     <> stored one_turn_cache (lit "user_123").
Proof. repeat split; by vm_compute. Qed.

(** C3, amended. When the POST of a call fails in transport ([requests.post]
    raises a [RequestException], or the response has an error status and
    [raise_for_status] raises), the call returns the failure pair whose
    message wraps the description of the failure, and no assistant message
    is stored. Without session the cache is untouched. With a session id
    that has no entry the cache is left as it was: the same keys, the id
    still without entry, every list object and every stored sequence
    unchanged. With a session that has an entry, no key is added or removed,
    the entries of other list objects are unchanged, and the stored sequence
    of the session has gained the user message of this call (after the fixed
    system message when it was empty) and no assistant message. *)
Theorem failed_post_appends_no_reply ft self text tl ctx sid cache kw net q desc :
  wire (translate_text ft self text tl ctx sid cache kw net) = [q] ->
  transport_failure (net q) desc ->
  let call := translate_text ft self text tl ctx sid cache kw net in
  result call
  = Return (false, translate_error ++ lit "请求Ollama API失败: " ++ desc)
  /\ (session_of sid cache = None -> cache_after call = cache)
  /\ (forall k c, session_of sid cache = Some (k, c) -> keys c !! k = None ->
       exists c', cache_after call = Some c'
         /\ keys c' = keys c
         /\ stored c' k = None
         /\ (forall r l, lists c !! r = Some l -> lists c' !! r = Some l)
         /\ (forall k' l, stored c k' = Some l -> stored c' k' = Some l)
         /\ (wf c -> forall k', stored c' k' = stored c k'))
  /\ (forall k c l, session_of sid cache = Some (k, c) -> stored c k = Some l ->
       exists c', cache_after call = Some c'
         /\ keys c' = keys c
         /\ (forall k', keys c !! k' <> keys c !! k -> stored c' k' = stored c k')
         /\ stored c' k
            = Some (l ++ seed l
                      ++ [ {| role := user; content := user_message text ctx |} ])
         /\ (forall l', stored c' k = Some l' ->
                count_role assistant l' = count_role assistant l)).
Proof.
  intros [Hkw ->]%wire_posted Hnet call.
  assert (result call
          = Return (false, translate_error ++ lit "请求Ollama API失败: " ++ desc)
          /\ cache_after call = (assembled text tl ctx sid cache).2)
    as [Hres Hcache].
  { destruct Hnet as [Hnet | (status & body & Hnet)].
    - by apply translate_text_failed.
    - by eapply translate_text_refused. }
  split; [done|]. split; [|split].
  - intros Hs. by rewrite Hcache, assembled_no_session.
  - intros k c Hs Hk. rewrite Hcache, (assembled_absent _ _ _ _ _ _ _ Hs Hk).
    cbn [snd]. eexists. split; [reflexivity|]. cbn [keys lists].
    split; [done|]. split; [unfold stored; cbn [keys]; by rewrite Hk|].
    assert (Hlists : forall r l, lists c !! r = Some l ->
              (lists c ++ [[ {| role := system; content := session_system_prompt |};
                             {| role := user; content := user_message text ctx |} ]])
                !! r = Some l).
    { intros r l Hl. by apply lookup_app_l_Some. }
    split; [exact Hlists|]. split.
    + intros k' l (r & Hr & Hl)%stored_Some. unfold stored. cbn [keys lists].
      rewrite Hr. by apply Hlists.
    + intros Hwf k'. unfold stored. cbn [keys lists].
      destruct (keys c !! k') as [r|] eqn:Hr; [|done].
      apply lookup_app_l. by eapply Hwf.
  - intros k c l Hs Hl.
    destruct (translate_text_existing ft self text tl ctx sid cache kw net k c l Hs Hl)
      as (c' & Hc' & Hkeys & Hother & Hcases). fold call in Hc', Hcases.
    exists c'. repeat (split; [done|]).
    assert (stored c' k
            = Some (l ++ seed l
                      ++ [ {| role := user; content := user_message text ctx |} ]))
      as Hst.
    { destruct Hcases as [(s & _ & _ & Hok & _) | [_ Hst]]; [|done].
      rewrite Hres in Hok. discriminate. }
    split; [done|]. intros l' Hl'. rewrite Hst in Hl'. injection Hl' as <-.
    rewrite !count_role_app. destruct (count_role_seed l) as (-> & _).
    assert (forall m, count_role assistant [ {| role := user; content := m |} ] = 0)
      as -> by done.
    lia.
Qed.

Lemma failed_post_appends_no_reply_witness :
  (result failing_call
   = Return (false, translate_error ++ lit "请求Ollama API失败: " ++ http_500_text)
   /\ exists c',
       cache_after failing_call = Some c'
       /\ stored c' (lit "user_123")
          = Some ([ {| role := assistant; content := lit "A1" |} ]
                  ++ seed [ {| role := assistant; content := lit "A1" |} ]
                  ++ [ {| role := user;
                          content := user_message (lit "And tomorrow?") None |} ]))
  /\ exists c',
      cache_after (translate_text cpython_text client (lit "Hello")
                     default_target_lang None (Some (lit "new"))
                     (Some one_turn_cache) ∅
                     (fun _ => Failed (lit "Connection refused")))
      = Some c'
      /\ keys c' = keys one_turn_cache
      /\ stored c' (lit "new") = None
      /\ stored c' (lit "user_123") = stored one_turn_cache (lit "user_123").
Proof.
  split.
  - destruct (failed_post_appends_no_reply cpython_text client (lit "And tomorrow?")
                default_target_lang None (Some (lit "user_123")) (Some one_turn_cache)
                ∅ http_500
                (posted client (lit "And tomorrow?") default_target_lang None
                   (Some (lit "user_123")) (Some one_turn_cache) ∅)
                http_500_text)
      as (Hresult & _ & _ & Hsession);
      [reflexivity | right; eexists _, _; reflexivity |].
    split; [exact Hresult|].
    destruct (Hsession (lit "user_123") one_turn_cache
                [ {| role := assistant; content := lit "A1" |} ])
      as (c' & Hc' & _ & _ & Hstored & _); [reflexivity | reflexivity |].
    exists c'. split; [exact Hc' | exact Hstored].
  - destruct (failed_post_appends_no_reply cpython_text client (lit "Hello")
                default_target_lang None (Some (lit "new")) (Some one_turn_cache)
                ∅ (fun _ => Failed (lit "Connection refused"))
                (posted client (lit "Hello") default_target_lang None
                   (Some (lit "new")) (Some one_turn_cache) ∅)
                (lit "Connection refused"))
      as (_ & _ & Hfresh & _); [reflexivity | by left |].
    destruct (Hfresh (lit "new") one_turn_cache)
      as (c' & Hc' & Hkeys & Hnone & _ & _ & Hsame); [reflexivity | reflexivity |].
    exists c'. split; [exact Hc'|]. split; [exact Hkeys|]. split; [exact Hnone|].
    apply Hsame. intros k r. unfold one_turn_cache. cbn [keys lists length].
    intros [<- <-]%lookup_singleton_Some. lia.
Defined.

Lemma session_prompt_differs tl : session_system_prompt <> system_prompt tl.
Proof.
  intros H. apply (f_equal (fun s : pystr => s !! 3)) in H.
  vm_compute in H. discriminate.
Qed.

(** C4, on the code. A call that starts a session (the id has no entry, or
    its stored list is empty) puts first, in the list it sends, the fixed
    system message of [__get_session], and that text is not the system
    prompt built from the target language, whatever the language. *)
Theorem new_session_starts_with_the_fixed_prompt ft self text tl ctx k c kw net :
  k <> [] -> keys c !! k = None \/ stored c k = Some [] ->
  kw !! lit "messages" = None ->
  let call := translate_text ft self text tl ctx (Some k) (Some c) kw net in
  (exists q, wire call = [q]
     /\ messages q = [ {| role := system; content := session_system_prompt |};
                       {| role := user; content := user_message text ctx |} ])
  /\ (stored c k = Some [] ->
      exists rest,
        stored_after call k
        = Some ({| role := system; content := session_system_prompt |} :: rest))
  /\ session_system_prompt <> system_prompt tl.
Proof.
  intros Hk Hnew Hkw call. pose proof (session_of_truthy k c Hk) as Hs.
  split; [|split; [|apply session_prompt_differs]].
  - eexists. split; [by apply posted_wire|]. unfold posted. cbn [messages payload].
    destruct Hnew as [Hnone | (r & Hr & Hl)%stored_Some].
    + by rewrite (assembled_absent _ _ _ _ _ _ _ Hs Hnone).
    + by rewrite (assembled_present _ _ _ _ _ _ _ _ _ Hs Hr Hl).
  - intros Hl.
    destruct (translate_text_existing ft self text tl ctx (Some k) (Some c) kw net k c []
                Hs Hl) as (c' & Hc' & _ & _ & Hcases). fold call in Hc', Hcases.
    unfold stored_after. rewrite Hc'. cbn [stored_in].
    destruct Hcases as [(s & _ & _ & _ & ->) | [_ ->]]; eauto.
Qed.

Lemma new_session_starts_with_the_fixed_prompt_witness :
  exists q,
    wire (translate_text cpython_text client (lit "Hello") (lit "ja") None
            (Some (lit "user_123")) (Some empty_cache) ∅ (replies (lit "こんにちは")))
    = [q]
    /\ messages q = [ {| role := system; content := session_system_prompt |};
                      {| role := user; content := user_message (lit "Hello") None |} ].
Proof.
  apply (new_session_starts_with_the_fixed_prompt cpython_text client (lit "Hello")
           (lit "ja") None (lit "user_123") empty_cache ∅ (replies (lit "こんにちは"))).
  - by vm_compute.
  - left. reflexivity.
  - reflexivity.
Defined.

End SessionClaims.

Section Responses.

Import Ollama Steps Demo.

Implicit Types (ft : Fault -> pystr) (self : Ollama) (text tl : pystr)
  (ctx sid : option pystr) (cache : option Cache) (kw : gmap pystr pyval)
  (net : ChatRequest -> Outcome).

(** C7, as the spec words it, fails on a reply whose [content] is not a
    string: [{"message": {"content": null}}] has a message object with a
    content field, and [strip] raises on it, so the call returns the failure
    of the handler. A reply whose [message] is not an object,
    [{"message": null}], has no [message.content], and the failure is the
    handler's too, not the format error. *)
Lemma null_content_is_not_a_success :
  result null_content_call
  = Return (false, translate_error
                   ++ lit "'NoneType' object has no attribute 'strip'")
  /\ (forall t, result null_content_call <> Return (true, t))
  /\ result null_message_call
     = Return (false, translate_error
                      ++ lit "argument of type 'NoneType' is not iterable")
  /\ result null_message_call <> Return (false, format_error).
Proof. repeat split; try intros t; by vm_compute. Qed.

(** C7, amended. For a call that posts a request and receives a response:
    a JSON object whose [message] is an object whose [content] is a string
    gives success with the stripped string; a JSON object without [message],
    or whose [message] is an object without [content], gives the format
    error; a [content] that is not a string gives the failure of the
    handler. Whatever the response, the call returns a pair (it raises
    nothing), which is one of these three, and it is a success only in the
    first case. *)
Theorem reply_is_success_format_error_or_handled
    ft self text tl ctx sid cache kw net q :
  wire (translate_text ft self text tl ctx sid cache kw net) = [q] ->
  let call := translate_text ft self text tl ctx sid cache kw net in
  (forall s, chat_reply (net q) s -> result call = Return (true, strip s))
  /\ (reply_lacks_content (net q) -> result call = Return (false, format_error))
  /\ (forall d m v, net q = Passed (JSON (PyDict d)) ->
        d !! lit "message" = Some (PyDict m) -> m !! lit "content" = Some v ->
        (forall s, v <> PyStr s) ->
        result call
        = Return (false, translate_error ++ ft (NoAttribute (type_of v) (lit "strip"))))
  /\ ((exists s, chat_reply (net q) s /\ result call = Return (true, strip s))
      \/ result call = Return (false, format_error)
      \/ exists e, result call = Return (false, translate_error ++ str ft e)).
Proof.
  intros [Hkw ->]%wire_posted call. split; [|split; [|split]].
  - intros s Hs. by apply translate_text_content.
  - intros Hlacks. by apply translate_text_lacks.
  - intros d m v Hnet Hd Hm Hv. by eapply translate_text_content_not_str.
  - destruct (translate_text_cases ft self text tl ctx sid cache kw net)
      as [(s & _ & Hs & Hres & _) | [[Hres _] | (e & Hres & _)]]; eauto.
Qed.

Lemma reply_is_success_format_error_or_handled_witness :
  result (translate_text cpython_text client (lit "Hello") default_target_lang None
            None None ∅ (replies (lit " 你好 " ++ nl)))
  = Return (true, lit "你好")
  /\ result (translate_text cpython_text client (lit "Hello") default_target_lang None
               None None ∅ (answers (PyDict {[ lit "message" := PyDict ∅ ]})))
     = Return (false, format_error).
Proof.
  split.
  - destruct (reply_is_success_format_error_or_handled cpython_text client (lit "Hello")
                default_target_lang None None None ∅ (replies (lit " 你好 " ++ nl))
                (posted client (lit "Hello") default_target_lang None None None ∅))
      as (Hok & _); [reflexivity|].
    apply (Hok (lit " 你好 " ++ nl)). apply replies_chat_reply.
  - destruct (reply_is_success_format_error_or_handled cpython_text client (lit "Hello")
                default_target_lang None None None ∅
                (answers (PyDict {[ lit "message" := PyDict ∅ ]}))
                (posted client (lit "Hello") default_target_lang None None None ∅))
      as (_ & Hformat & _); [reflexivity|].
    apply Hformat. eexists. split; [reflexivity|]. right.
    eexists. split; reflexivity.
Defined.

(** The names of a list of model objects, in order. *)
Lemma for_each_names (ms names : list pyval) :
  Forall2 (fun m n => exists dm, m = PyDict dm /\ dm !! lit "name" = Some n) ms names ->
  for_each (fun model => py_getitem model (lit "name")) ms = Return names.
Proof.
  induction 1 as [|m n ms names (dm & -> & Hn) _ IH]; [done|].
  cbn [for_each py_getitem]. rewrite Hn. cbn [bind]. by rewrite IH.
Qed.

Lemma for_each_stops_at (good names rest : list pyval) m e :
  Forall2 named good names ->
  py_getitem m (lit "name") = Raise e ->
  for_each (fun model => py_getitem model (lit "name")) (good ++ m :: rest) = Raise e.
Proof.
  intros Hgood Hm. induction Hgood as [|g n good names (d & -> & Hn) _ IH].
  - cbn [app for_each]. by rewrite Hm.
  - cbn [app for_each py_getitem]. rewrite Hn. cbn [bind]. by rewrite IH.
Qed.

Lemma nameless_raises m e : nameless m e -> py_getitem m (lit "name") = Raise e.
Proof.
  intros [(dm & -> & Hdm & ->) | [Hm ->]].
  - cbn [py_getitem]. by rewrite Hdm.
  - destruct m; try reflexivity. by destruct (Hm d).
Qed.

(** C8. When the body of the response is a JSON object whose [models] is a
    list of objects, each with a [name], [list_models] returns success with
    the names in the order of the list. Every failure returns the failure
    flag with a one-element list holding the message, which is the fixed
    prefix followed by the text of what was raised: the text of the
    exception when the GET or the status check raises or the body is not
    JSON; the [AttributeError] of [.get] when the body is not an object; the
    [TypeError] of the iteration when [models] is null, a boolean or a
    number; what [model['name']] raises on the first value of the list that
    is not an object with a [name] (the names before it are dropped); the
    [TypeError] of indexing a string when [models] is a non-empty object or
    string. An absent [models], an empty object and an empty string give
    success with no name. *)
Theorem list_models_returns_names_in_order ft self (net : pystr -> Z -> Outcome) :
  (forall d ms names,
     net (_base_url self ++ lit "/api/tags") 10%Z = Passed (JSON (PyDict d)) ->
     d !! lit "models" = Some (PyList ms) ->
     Forall2 (fun m n => exists dm, m = PyDict dm /\ dm !! lit "name" = Some n)
       ms names ->
     list_models ft self net = Return (true, names))
  /\ (forall names,
        net (_base_url self ++ lit "/api/tags") 10%Z
        = Passed (JSON (PyDict {[ lit "models" :=
                     PyList (map (fun n => PyDict {[ lit "name" := n ]}) names) ]})) ->
        list_models ft self net = Return (true, names))
  /\ (forall desc,
        net (_base_url self ++ lit "/api/tags") 10%Z = Failed desc ->
        list_models ft self net = Return (false, [ PyStr (models_error ++ desc) ]))
  /\ ((exists names, list_models ft self net = Return (true, names))
      \/ (exists e, list_models ft self net
                    = Return (false, [ PyStr (models_error ++ str ft e) ])))
  /\ (forall desc,
        (exists status_code body,
            net (_base_url self ++ lit "/api/tags") 10%Z
            = Refused status_code desc body)
        \/ net (_base_url self ++ lit "/api/tags") 10%Z = Crashed desc
        \/ net (_base_url self ++ lit "/api/tags") 10%Z = Passed (NotJSON desc) ->
        list_models ft self net = Return (false, [ PyStr (models_error ++ desc) ]))
  /\ (forall v,
        net (_base_url self ++ lit "/api/tags") 10%Z = Passed (JSON v) ->
        (forall d, v <> PyDict d) ->
        list_models ft self net
        = Return (false, [ PyStr (models_error
                                  ++ ft (NoAttribute (type_of v) (lit "get"))) ]))
  /\ (forall d,
        net (_base_url self ++ lit "/api/tags") 10%Z = Passed (JSON (PyDict d)) ->
        (forall mv, d !! lit "models" = Some mv ->
           (forall s, mv <> PyStr s) -> (forall ms, mv <> PyList ms) ->
           (forall dd, mv <> PyDict dd) ->
           list_models ft self net
           = Return (false, [ PyStr (models_error ++ ft (NotIterable (type_of mv))) ]))
        /\ (forall good names m rest e,
              d !! lit "models" = Some (PyList (good ++ m :: rest)) ->
              Forall2 named good names -> nameless m e ->
              list_models ft self net
              = Return (false, [ PyStr (models_error ++ str ft e) ]))
        /\ (forall mv, d !! lit "models" = Some mv ->
              (exists dd, mv = PyDict dd /\ dd <> ∅)
              \/ (exists s, mv = PyStr s /\ s <> []) ->
              list_models ft self net
              = Return (false, [ PyStr (models_error ++ ft (BadSubscript TStr)) ]))
        /\ (d !! lit "models" = None \/ d !! lit "models" = Some (PyDict ∅)
            \/ d !! lit "models" = Some (PyStr []) ->
            list_models ft self net = Return (true, []))).
Proof.
  assert (Hnames : forall d ms names,
     net (_base_url self ++ lit "/api/tags") 10%Z = Passed (JSON (PyDict d)) ->
     d !! lit "models" = Some (PyList ms) ->
     Forall2 (fun m n => exists dm, m = PyDict dm /\ dm !! lit "name" = Some n)
       ms names ->
     list_models ft self net = Return (true, names)).
  { intros d ms names Hnet Hd Hms. unfold list_models. rewrite Hnet.
    cbn [bind json py_get]. rewrite Hd. cbn [default from_option id bind py_iter].
    by rewrite (for_each_names _ _ Hms). }
  split; [exact Hnames|]. split; [|split; [|split; [|split; [|split]]]].
  - intros names Hnet. eapply Hnames; [exact Hnet|apply lookup_singleton_eq|].
    clear Hnet. induction names as [|n names IH]; cbn [map]; constructor; [|done].
    eexists. split; [reflexivity|]. apply lookup_singleton_eq.
  - intros desc Hnet. unfold list_models. by rewrite Hnet.
  - unfold list_models. destruct (bind _ _) as [models|e]; eauto.
  - intros desc [(status & body & Hnet) | [Hnet | Hnet]];
      unfold list_models; by rewrite Hnet.
  - intros v Hnet Hv. unfold list_models. rewrite Hnet. cbn [bind json].
    destruct v; try reflexivity. by destruct (Hv d).
  - intros d Hnet. split; [|split; [|split]].
    + intros mv Hd Hs Hl Hdd. unfold list_models. rewrite Hnet.
      cbn [bind json py_get]. rewrite Hd. cbn [default from_option id].
      destruct mv; try reflexivity.
      * by destruct (Hs s).
      * by destruct (Hl l).
      * by destruct (Hdd d0).
    + intros good names m rest e Hd Hgood Hm. unfold list_models. rewrite Hnet.
      cbn [bind json py_get]. rewrite Hd. cbn [default from_option id bind py_iter].
      by rewrite (for_each_stops_at _ _ _ _ _ Hgood (nameless_raises _ _ Hm)).
    + intros mv Hd Hmv. unfold list_models. rewrite Hnet.
      cbn [bind json py_get]. rewrite Hd. cbn [default from_option id].
      destruct Hmv as [(dd & -> & Hdd) | (s & -> & Hs)]; cbn [py_iter bind].
      * destruct (map_to_list dd) as [|[k0 v0] items] eqn:Hitems; [|done].
        by apply map_to_list_empty_iff in Hitems.
      * by destruct s.
    + intros [Hd | [Hd | Hd]]; unfold list_models; rewrite Hnet;
        cbn [bind json py_get]; rewrite Hd; reflexivity.
Qed.

Lemma list_models_returns_names_in_order_witness :
  list_models cpython_text client (fun _ _ => Passed (JSON two_models))
  = Return (true, [ PyStr (lit "a"); PyStr (lit "b") ])
  /\ list_models cpython_text client (fun _ _ => Failed (lit "Connection refused"))
     = Return (false, [ PyStr (models_error ++ lit "Connection refused") ])
  /\ list_models cpython_text client
       (fun _ _ => Passed (NotJSON (lit "Expecting value: line 1 column 1 (char 0)")))
     = Return (false, [ PyStr (models_error
                               ++ lit "Expecting value: line 1 column 1 (char 0)") ])
  /\ list_models cpython_text client (fun _ _ => Passed (JSON (PyList [])))
     = Return (false, [ PyStr (models_error
                               ++ lit "'list' object has no attribute 'get'") ])
  /\ list_models cpython_text client
       (fun _ _ => Passed (JSON (PyDict {[ lit "models" :=
           PyList ([ PyDict {[ lit "name" := PyStr (lit "a") ]} ]
                   ++ PyDict {[ lit "size" := PyInt 7 ]} :: []) ]})))
     = Return (false, [ PyStr (models_error ++ lit "'name'") ]).
Proof.
  split; [|split; [|split; [|split]]].
  - destruct (list_models_returns_names_in_order cpython_text client
                (fun _ _ => Passed (JSON two_models))) as (_ & Hform & _).
    apply Hform. reflexivity.
  - destruct (list_models_returns_names_in_order cpython_text client
                (fun _ _ => Failed (lit "Connection refused"))) as (_ & _ & Hfail & _).
    apply Hfail. reflexivity.
  - destruct (list_models_returns_names_in_order cpython_text client
                (fun _ _ => Passed (NotJSON
                   (lit "Expecting value: line 1 column 1 (char 0)"))))
      as (_ & _ & _ & _ & Hraised & _).
    apply Hraised. right; right. reflexivity.
  - destruct (list_models_returns_names_in_order cpython_text client
                (fun _ _ => Passed (JSON (PyList []))))
      as (_ & _ & _ & _ & _ & Hshape & _).
    apply (Hshape (PyList [])); [reflexivity | discriminate].
  - destruct (list_models_returns_names_in_order cpython_text client
                (fun _ _ => Passed (JSON (PyDict {[ lit "models" :=
                   PyList ([ PyDict {[ lit "name" := PyStr (lit "a") ]} ]
                           ++ PyDict {[ lit "size" := PyInt 7 ]} :: []) ]}))))
      as (_ & _ & _ & _ & _ & _ & Hobject).
    destruct (Hobject {[ lit "models" :=
                 PyList ([ PyDict {[ lit "name" := PyStr (lit "a") ]} ]
                         ++ PyDict {[ lit "size" := PyInt 7 ]} :: []) ]})
      as (_ & Hfirst & _); [reflexivity|].
    apply (Hfirst [ PyDict {[ lit "name" := PyStr (lit "a") ]} ] [ PyStr (lit "a") ]
             (PyDict {[ lit "size" := PyInt 7 ]}) []
             (Interp (KeyMissing (lit "name")))).
    + apply lookup_singleton_eq.
    + repeat constructor. eexists. split; [reflexivity|]. apply lookup_singleton_eq.
    + left. eexists. split; [reflexivity|]. split; [by vm_compute | reflexivity].
Defined.

End Responses.

Section Further.

Import Ollama Steps Demo.

Implicit Types (ft : Fault -> pystr) (self : Ollama) (text tl : pystr)
  (ctx sid : option pystr) (cache : option Cache) (kw : gmap pystr pyval)
  (net : ChatRequest -> Outcome).



End Further.

(** ** The constructor *)

Section Constructor.

Import Ollama Steps Demo.

Lemma drop_slashes_spec (s : pystr) :
  exists pre, s = pre ++ drop_slashes s /\ Forall is_slash pre
              /\ (forall c r, drop_slashes s = c :: r -> c <> 47%N).
Proof.
  induction s as [|c s IH]; simpl.
  - exists []. repeat split; [constructor | intros; discriminate].
  - destruct (c =? 47)%N eqn:Hc.
    + destruct IH as (pre & Heq & Hpre & Hhd).
      exists (c :: pre). split; [simpl; congruence|]. split; [|done].
      constructor; [|done]. by apply N.eqb_eq.
    + exists []. split; [done|]. split; [constructor|].
      intros c' r [= <- _]. by apply N.eqb_neq.
Qed.

Lemma rstrip_slash_spec (s : pystr) :
  exists slashes, s = rstrip_slash s ++ slashes /\ Forall is_slash slashes
                  /\ no_trailing_slash (rstrip_slash s).
Proof.
  destruct (drop_slashes_spec (rev s)) as (pre & Heq & Hpre & Hhd).
  exists (rev pre). unfold rstrip_slash. split; [|split].
  - rewrite <- rev_app_distr, <- Heq. by rewrite rev_involutive.
  - by apply Forall_rev.
  - intros r c Hr. apply (f_equal (@rev N)) in Hr.
    rewrite rev_involutive, rev_app_distr in Hr. simpl in Hr. eauto.
Qed.

Lemma rstrip_slash_fixed (s : pystr) :
  no_trailing_slash s -> rstrip_slash s = s.
Proof.
  intros Hs. unfold rstrip_slash.
  destruct (rev s) as [|c r] eqn:Hrev.
  - apply (f_equal (@rev N)) in Hrev. rewrite rev_involutive in Hrev. by subst.
  - assert (s = rev r ++ [c]) as Hsplit.
    { apply (f_equal (@rev N)) in Hrev. by rewrite rev_involutive in Hrev. }
    simpl. destruct (c =? 47)%N eqn:Hc.
    + apply N.eqb_eq in Hc. by destruct (Hs _ _ Hsplit).
    + simpl. by rewrite Hsplit.
Qed.

Lemma default_base_url_no_trailing_slash : no_trailing_slash default_base_url.
Proof.
  intros r c Hr. apply (f_equal (@last N)) in Hr. rewrite last_snoc in Hr.
  vm_compute in Hr. injection Hr as <-. done.
Qed.

(** X3. The base URL of a client never ends with a slash. A non-empty
    [base_url] argument loses its trailing slashes and nothing else; one
    made of slashes only leaves the client with an empty base URL, not with
    the default. *)
Theorem init_base_url_has_no_trailing_slash
    (base_url model : option pystr) (timeout : option Z) :
  no_trailing_slash (_base_url (__init__ base_url model timeout))
  /\ (forall b, base_url = Some b -> b <> [] ->
        exists slashes,
          b = _base_url (__init__ base_url model timeout) ++ slashes
          /\ Forall is_slash slashes)
  /\ (forall b, base_url = Some b -> b <> [] -> Forall is_slash b ->
        _base_url (__init__ base_url model timeout) = []).
Proof.
  assert (Hgiven : forall b, base_url = Some b -> b <> [] ->
            _base_url (__init__ base_url model timeout) = rstrip_slash b).
  { intros b -> Hb. by destruct b. }
  split; [|split].
  - destruct base_url as [[|c r]|]; cbn [__init__ _base_url];
      try apply default_base_url_no_trailing_slash.
    by destruct (rstrip_slash_spec (c :: r)) as (? & _ & _ & ?).
  - intros b Hb Hne. rewrite (Hgiven b Hb Hne).
    destruct (rstrip_slash_spec b) as (slashes & ? & ? & _). eauto.
  - intros b Hb Hne Hall. rewrite (Hgiven b Hb Hne).
    destruct (rstrip_slash_spec b) as (slashes & Heq & _ & Hlast).
    destruct (rstrip_slash b) as [|c r] eqn:Hstrip using rev_ind; [done|].
    exfalso. apply (Hlast r c eq_refl).
    rewrite Heq in Hall. apply Forall_app in Hall as [Hall _].
    apply Forall_app in Hall as [_ Hc]. by inversion Hc.
Qed.

Lemma init_base_url_has_no_trailing_slash_witness :
  _base_url (__init__ (Some (lit "http://ollama:11434//")) None None)
  = lit "http://ollama:11434"
  /\ _base_url (__init__ (Some (lit "///")) None None) = [].
Proof.
  split.
  - destruct (init_base_url_has_no_trailing_slash
                (Some (lit "http://ollama:11434//")) None None)
      as (_ & Hstrip & _).
    destruct (Hstrip (lit "http://ollama:11434//")) as (slashes & Heq & _);
      [reflexivity | by vm_compute |]. reflexivity.
  - destruct (init_base_url_has_no_trailing_slash (Some (lit "///")) None None)
      as (_ & _ & Hempty).
    apply (Hempty (lit "///")); [reflexivity | by vm_compute |].
    vm_compute. repeat constructor.
Defined.

(** X4. Building a client again from the fields of a client gives the same
    client, provided its base URL is not empty. *)
Theorem init_round_trip (base_url model : option pystr) (timeout : option Z) :
  let o := __init__ base_url model timeout in
  _base_url o <> [] ->
  __init__ (Some (_base_url o)) (Some (_model o)) (Some (_timeout o)) = o.
Proof.
  intros o Hne.
  destruct (init_base_url_has_no_trailing_slash base_url model timeout) as (Hns & _).
  fold o in Hns.
  assert (_model o <> []) as Hm.
  { subst o. destruct model as [[|c r]|]; cbn [__init__ _model]; by vm_compute. }
  assert (_timeout o <> 0%Z) as Ht.
  { subst o. destruct timeout as [t|]; cbn [__init__ _timeout]; [|done].
    destruct (t =? 0)%Z eqn:Ht0; [done|]. by apply Z.eqb_neq. }
  destruct o as [b m t]. cbn [_base_url _model _timeout] in *.
  unfold __init__. destruct b as [|cb rb]; [done|]. destruct m as [|cm rm]; [done|].
  rewrite (rstrip_slash_fixed _ Hns).
  apply Z.eqb_neq in Ht. by rewrite Ht.
Qed.

Lemma init_round_trip_witness :
  __init__ (Some (_base_url (__init__ (Some (lit "http://ollama:11434/")) None (Some 0%Z))))
           (Some (_model (__init__ (Some (lit "http://ollama:11434/")) None (Some 0%Z))))
           (Some (_timeout (__init__ (Some (lit "http://ollama:11434/")) None (Some 0%Z))))
  = __init__ (Some (lit "http://ollama:11434/")) None (Some 0%Z).
Proof.
  apply (init_round_trip (Some (lit "http://ollama:11434/")) None (Some 0%Z)).
  by vm_compute.
Defined.

End Constructor.

(** ** More on sessions *)

Section MoreSessions.

Import Ollama Steps Demo.

Implicit Types (ft : Fault -> pystr) (self : Ollama) (text tl : pystr)
  (ctx sid : option pystr) (cache : option Cache) (kw : gmap pystr pyval)
  (net : ChatRequest -> Outcome) (c : Cache) (k : pystr) (l : list Message).

Lemma one_turn_cache_wf : wf one_turn_cache.
Proof.
  intros k r. unfold one_turn_cache. cbn [keys lists length].
  intros [<- <-]%lookup_singleton_Some. lia.
Qed.

Lemma shared_cache_wf : wf shared_cache.
Proof.
  intros k r Hk. unfold shared_cache in *. cbn [keys lists length] in *.
  repeat (apply lookup_insert_Some in Hk as [[_ <-] | [_ Hk]]; [lia|]).
  apply lookup_singleton_Some in Hk as [_ <-]. lia.
Qed.

(** X5. With a session that has an entry, the stored sequence only grows:
    whatever the outcome of the call, the sequence stored before is a prefix
    of the sequence stored after, and the dict has the same keys. *)
Theorem session_history_is_append_only ft self text tl ctx sid cache kw net k c l :
  session_of sid cache = Some (k, c) ->
  stored c k = Some l ->
  exists c' l',
    cache_after (translate_text ft self text tl ctx sid cache kw net) = Some c'
    /\ keys c' = keys c
    /\ stored c' k = Some l'
    /\ l `prefix_of` l'.
Proof.
  intros Hs Hl.
  destruct (translate_text_existing ft self text tl ctx sid cache kw net k c l Hs Hl)
    as (c' & Hc' & Hkeys & _ & [(s & _ & _ & _ & Hst) | [_ Hst]]);
    eexists c', _; (split; [exact Hc'|]); (split; [exact Hkeys|]);
    (split; [exact Hst|]).
  - by do 2 apply prefix_app_r.
  - by apply prefix_app_r.
Qed.

Lemma session_history_is_append_only_witness :
  exists c' l',
    cache_after failing_call = Some c'
    /\ keys c' = keys one_turn_cache
    /\ stored c' (lit "user_123") = Some l'
    /\ [ {| role := assistant; content := lit "A1" |} ] `prefix_of` l'.
Proof.
  apply (session_history_is_append_only cpython_text client (lit "And tomorrow?")
           default_target_lang None (Some (lit "user_123")) (Some one_turn_cache) ∅
           http_500 (lit "user_123") one_turn_cache); reflexivity.
Defined.

(** X6. With a session that has an entry, a reply is saved exactly when the
    call succeeds, and the saved text is the returned text: on success the
    stored sequence gains the user message and then the assistant message
    with the returned text; on failure it gains the user message only. Both
    come after the fixed system message when the stored sequence was
    empty. *)
Theorem reply_is_saved_exactly_on_success
    ft self text tl ctx sid cache kw net k c l :
  session_of sid cache = Some (k, c) ->
  stored c k = Some l ->
  let call := translate_text ft self text tl ctx sid cache kw net in
  let turn := l ++ seed l ++ [ {| role := user; content := user_message text ctx |} ] in
  (forall t, result call = Return (true, t) ->
     stored_after call k = Some (turn ++ [ {| role := assistant; content := t |} ]))
  /\ (forall msg, result call = Return (false, msg) ->
        stored_after call k = Some turn).
Proof.
  intros Hs Hl call turn.
  destruct (translate_text_existing ft self text tl ctx sid cache kw net k c l Hs Hl)
    as (c' & Hc' & _ & _ & Hcases). fold call in Hc'. fold call turn in Hcases.
  unfold stored_after. rewrite Hc'. cbn [stored_in].
  destruct Hcases as [(s & _ & _ & Hres & Hst) | [[msg0 Hres] Hst]];
    rewrite Hres; split; intros ? [= ?]; by subst.
Qed.

Lemma reply_is_saved_exactly_on_success_witness :
  stored_after (call_of cpython_text client (Some (lit "user_123"))
                  (Some one_turn_cache) third_turn) (lit "user_123")
  = Some ([ {| role := assistant; content := lit "A1" |} ]
          ++ seed [ {| role := assistant; content := lit "A1" |} ]
          ++ [ {| role := user; content := user_message (lit "Thanks") None |} ]
          ++ [ {| role := assistant; content := lit "谢谢" |} ])
  /\ stored_after failing_call (lit "user_123")
     = Some ([ {| role := assistant; content := lit "A1" |} ]
             ++ seed [ {| role := assistant; content := lit "A1" |} ]
             ++ [ {| role := user; content := user_message (lit "And tomorrow?") None |} ]).
Proof.
  split.
  - destruct (reply_is_saved_exactly_on_success cpython_text client (lit "Thanks")
                default_target_lang None (Some (lit "user_123")) (Some one_turn_cache)
                ∅ (replies (lit " 谢谢 ")) (lit "user_123") one_turn_cache
                [ {| role := assistant; content := lit "A1" |} ])
      as [Hok _]; [reflexivity | reflexivity |].
    apply (Hok (lit "谢谢")). by vm_compute.
  - destruct (reply_is_saved_exactly_on_success cpython_text client
                (lit "And tomorrow?") default_target_lang None
                (Some (lit "user_123")) (Some one_turn_cache) ∅ http_500
                (lit "user_123") one_turn_cache
                [ {| role := assistant; content := lit "A1" |} ])
      as [_ Hfail]; [reflexivity | reflexivity |].
    eapply Hfail. by vm_compute.
Defined.

Lemma no_session_keeps_cache ft self text tl ctx sid cache kw net :
  session_of sid cache = None ->
  cache_after (translate_text ft self text tl ctx sid cache kw net) = cache.
Proof.
  intros Hs.
  destruct (translate_text_cases ft self text tl ctx sid cache kw net)
    as [(s & _ & _ & _ & ->) | [[_ ->] | (e & _ & ->)]];
    by rewrite ?Hs, ?assembled_no_session.
Qed.

(** X7. A call leaves the other sessions alone. Without session (no id, an
    empty id, or no cache) the cache is returned as it was given. With a
    session and a well-formed cache, every other id whose entry is not the
    very list object of the session has the stored sequence it had, whatever
    the outcome. Two ids that share one list object see each other's
    messages. *)
Theorem other_sessions_are_untouched ft self text tl ctx sid cache kw net :
  let call := translate_text ft self text tl ctx sid cache kw net in
  (session_of sid cache = None -> cache_after call = cache)
  /\ (forall k c k', session_of sid cache = Some (k, c) -> wf c -> k' <> k ->
        (forall r, keys c !! k = Some r -> keys c !! k' <> Some r) ->
        stored_after call k' = stored c k')
  /\ (forall k c k' r, session_of sid cache = Some (k, c) -> wf c ->
        keys c !! k = Some r -> keys c !! k' = Some r ->
        stored_after call k' = stored_after call k).
Proof.
  intros call. split; [by apply no_session_keeps_cache|]. split.
  - intros k c k' Hs Hwf Hne Hshare.
    destruct (keys c !! k) as [r|] eqn:Hr.
    + destruct (lookup_lt_is_Some_2 (lists c) r (Hwf _ _ Hr)) as [l Hl].
      destruct (translate_text_existing ft self text tl ctx sid cache kw net k c l Hs)
        as (c' & Hc' & _ & Hother & _).
      { apply stored_Some. eauto. }
      fold call in Hc'. unfold stored_after. rewrite Hc'. cbn [stored_in].
      apply Hother. rewrite Hr. by apply Hshare.
    + destruct (translate_text_fresh ft self text tl ctx sid cache kw net k c Hs Hr)
        as (_ & Hother & _). by apply Hother.
  - intros k c k' r Hs Hwf Hr Hr'.
    destruct (lookup_lt_is_Some_2 (lists c) r (Hwf _ _ Hr)) as [l Hl].
    destruct (translate_text_existing ft self text tl ctx sid cache kw net k c l Hs)
      as (c' & Hc' & Hkeys & _ & _).
    { apply stored_Some. eauto. }
    fold call in Hc'. unfold stored_after. rewrite Hc'. cbn [stored_in].
    unfold stored. by rewrite Hkeys, Hr, Hr'.
Qed.

Lemma other_sessions_are_untouched_witness :
  stored_after (call_of cpython_text client (Some (lit "a")) (Some shared_cache)
                  third_turn) (lit "c")
  = stored shared_cache (lit "c")
  /\ stored_after (call_of cpython_text client (Some (lit "a")) (Some shared_cache)
                     third_turn) (lit "b")
     = stored_after (call_of cpython_text client (Some (lit "a")) (Some shared_cache)
                       third_turn) (lit "a")
  /\ cache_after (call_of cpython_text client None (Some shared_cache) third_turn)
     = Some shared_cache.
Proof.
  destruct (other_sessions_are_untouched cpython_text client (turn_text third_turn)
              (turn_lang third_turn) (turn_context third_turn) (Some (lit "a"))
              (Some shared_cache) (turn_kwargs third_turn) (turn_net third_turn))
    as (_ & Hother & Hshared).
  split; [|split].
  - apply (Hother (lit "a") shared_cache (lit "c")).
    + reflexivity.
    + apply shared_cache_wf.
    + by vm_compute.
    + intros r Hr Hr'. vm_compute in Hr, Hr'. congruence.
  - apply (Hshared (lit "a") shared_cache (lit "b") 0);
      [reflexivity | apply shared_cache_wf | reflexivity | reflexivity].
  - apply (other_sessions_are_untouched cpython_text client (turn_text third_turn)
             (turn_lang third_turn) (turn_context third_turn) None
             (Some shared_cache) (turn_kwargs third_turn) (turn_net third_turn)).
    reflexivity.
Defined.

End MoreSessions.

Section Lifecycle.

Import Ollama Steps Demo.

Implicit Types (ft : Fault -> pystr) (self : Ollama) (text tl : pystr)
  (ctx sid : option pystr) (cache : option Cache) (kw : gmap pystr pyval)
  (net : ChatRequest -> Outcome) (c : Cache) (k : pystr) (l : list Message).

(** X8. When the caller has put an empty list under the session id before
    the first call, the session grows as intended: after any number (at
    least one) of successful calls the stored sequence starts with the fixed
    system message, holds no other system message, and has one user message
    and one reply per call. *)
Theorem preseeded_session_follows_lifecycle ft self c k turns :
  k <> [] -> stored c k = Some [] -> turns <> [] -> Forall answered turns ->
  exists rest,
    stored_in (converse ft self (Some k) (Some c) turns) k
    = Some ({| role := system; content := session_system_prompt |} :: rest)
    /\ count_role system rest = 0
    /\ count_role user rest = length turns
    /\ count_role assistant rest = length turns
    /\ length rest = 2 * length turns.
Proof.
  intros Hk.
  assert (Hlater : forall turns, Forall answered turns ->
            forall c l, stored c k = Some l -> l <> [] ->
            exists l', stored_in (converse ft self (Some k) (Some c) turns) k
                       = Some (l ++ l')
                       /\ count_role system l' = 0
                       /\ count_role user l' = length turns
                       /\ count_role assistant l' = length turns
                       /\ length l' = 2 * length turns).
  { clear c turns. intros turns Hturns.
    induction Hturns as [|t turns [Hkw [s Hnet]] _ IH]; intros c l Hl Hne.
    - exists []. by rewrite app_nil_r.
    - destruct (existing_call_succeeds ft self (turn_text t) (turn_lang t)
                  (turn_context t) (turn_kwargs t) (turn_net t) k c l s Hk Hl Hkw Hnet)
        as (_ & Hst & _).
      cbn [converse]. unfold call_of. unfold stored_after, stored_in in Hst.
      destruct (cache_after _) as [c'|]; [|done].
      destruct l as [|m l]; [done|]. cbn [seed] in Hst.
      destruct (IH c' _ Hst) as (l' & Hl' & Hsys & Husr & Hast & Hlen); [by destruct l|].
      eexists ([ _; _ ] ++ l'). split; [|split; [|split; [|split]]].
      + rewrite Hl'. f_equal. by rewrite <- !app_assoc.
      + by rewrite count_role_app, Hsys.
      + by rewrite count_role_app, Husr.
      + by rewrite count_role_app, Hast.
      + rewrite length_app, Hlen. cbn [length]. lia. }
  intros Hl Hne Hturns.
  destruct Hturns as [|t turns [Hkw [s Hnet]] Hturns]; [done|].
  destruct (existing_call_succeeds ft self (turn_text t) (turn_lang t)
              (turn_context t) (turn_kwargs t) (turn_net t) k c [] s Hk Hl Hkw Hnet)
    as (_ & Hst & _).
  cbn [converse]. unfold call_of. unfold stored_after, stored_in in Hst.
  destruct (cache_after _) as [c'|]; [|done]. cbn [seed app] in Hst.
  destruct (Hlater turns Hturns c' _ Hst) as (l' & Hl' & Hsys & Husr & Hast & Hlen);
    [done|].
  eexists ([ _; _ ] ++ l'). split; [exact Hl'|]. split; [|split; [|split]].
  - by rewrite count_role_app, Hsys.
  - by rewrite count_role_app, Husr.
  - by rewrite count_role_app, Hast.
  - rewrite length_app, Hlen. cbn [length]. lia.
Qed.

Lemma preseeded_session_follows_lifecycle_witness :
  exists rest,
    stored_in (converse cpython_text client (Some (lit "user_123"))
                 (Some preseeded_cache) [first_turn; second_turn]) (lit "user_123")
    = Some ({| role := system; content := session_system_prompt |} :: rest)
    /\ length rest = 4.
Proof.
  destruct (preseeded_session_follows_lifecycle cpython_text client preseeded_cache
              (lit "user_123") [first_turn; second_turn])
    as (rest & Hst & _ & _ & _ & Hlen).
  - by vm_compute.
  - reflexivity.
  - done.
  - repeat constructor; apply answered_replies.
  - exists rest. split; [exact Hst | exact Hlen].
Defined.

Lemma clear_session_cache k c :
  (clear_session k c).2 = {| keys := delete k (keys c); lists := lists c |}.
Proof.
  unfold clear_session. case_bool_decide as Hin; [done|].
  cbn [snd]. destruct c as [ks ls]. cbn [keys lists] in *. f_equal.
  symmetry. apply delete_id. destruct (ks !! k); [|done]. destruct Hin; eauto.
Qed.

(** X9. Clearing a session twice is clearing it once, and clearing two
    sessions gives the same cache in either order. *)
Theorem clear_session_idempotent_and_commutes (k1 k2 : pystr) c :
  (clear_session k1 (clear_session k1 c).2).2 = (clear_session k1 c).2
  /\ (clear_session k1 (clear_session k2 c).2).2
     = (clear_session k2 (clear_session k1 c).2).2.
Proof.
  rewrite !clear_session_cache. cbn [keys lists]. split; f_equal.
  - apply delete_id. apply lookup_delete_eq.
  - apply delete_delete.
Qed.

(** X10. Clearing a session forgets its history: the next call with the same
    id sends the fixed system message and its own user message only,
    whatever the session held before. *)
Theorem cleared_session_starts_over ft self text tl ctx k c kw net q :
  k <> [] ->
  wire (translate_text ft self text tl ctx (Some k) (Some (clear_session k c).2) kw net)
  = [q] ->
  messages q = [ {| role := system; content := session_system_prompt |};
                 {| role := user; content := user_message text ctx |} ].
Proof.
  intros Hk Hq.
  destruct (translate_text_fresh ft self text tl ctx (Some k)
              (Some (clear_session k c).2) kw net k (clear_session k c).2)
    as (Hmsgs & _).
  - by apply session_of_truthy.
  - rewrite clear_session_cache. apply lookup_delete_eq.
  - by apply Hmsgs.
Qed.

Lemma cleared_session_starts_over_witness :
  messages (posted client (lit "Thanks") default_target_lang None
              (Some (lit "user_123"))
              (Some (clear_session (lit "user_123") one_turn_cache).2) ∅)
  = [ {| role := system; content := session_system_prompt |};
      {| role := user; content := user_message (lit "Thanks") None |} ].
Proof.
  apply (cleared_session_starts_over cpython_text client (lit "Thanks")
           default_target_lang None (lit "user_123") one_turn_cache ∅
           (replies (lit " 谢谢 "))); [by vm_compute | reflexivity].
Defined.

(** X11. [__get_session] never changes the keys of the dict. For an id
    without entry, the list it returns is a new one, holding the fixed system
    message and the user message, that the dict does not refer to: the id
    still has no entry afterwards. For an id with an entry it appends to the
    stored list itself. *)
Theorem get_session_never_registers k (message : pystr) c :
  keys (__get_session k message c).2 = keys c
  /\ (keys c !! k = None ->
      stored (__get_session k message c).2 k = None
      /\ read (__get_session k message c).1 (__get_session k message c).2
         = [ {| role := system; content := session_system_prompt |};
             {| role := user; content := message |} ]
      /\ (wf c -> forall k',
            keys (__get_session k message c).2 !! k'
            <> Some (__get_session k message c).1))
  /\ (forall l, stored c k = Some l ->
        stored (__get_session k message c).2 k
        = Some (l ++ seed l ++ [ {| role := user; content := message |} ])
        /\ read (__get_session k message c).1 (__get_session k message c).2
           = l ++ seed l ++ [ {| role := user; content := message |} ]).
Proof.
  split; [|split].
  - destruct (keys c !! k) as [r|] eqn:Hr.
    + unfold __get_session, get_or_new. rewrite Hr. by destruct (is_empty r c).
    + by rewrite (get_session_absent _ _ _ Hr).
  - intros Hr. rewrite (get_session_absent _ _ _ Hr). cbn [fst snd].
    split; [|split].
    + unfold stored. cbn [keys]. by rewrite Hr.
    + unfold read. cbn [lists]. by rewrite lookup_app_r, Nat.sub_diag by lia.
    + intros Hwf k' Hk'. cbn [keys] in Hk'. specialize (Hwf _ _ Hk'). lia.
  - intros l (r & Hr & Hl)%stored_Some.
    rewrite (get_session_present _ _ _ _ _ Hr Hl). cbn [fst snd].
    assert (<[r := l ++ seed l ++ [ {| role := user; content := message |} ]]>
              (lists c) !! r
            = Some (l ++ seed l ++ [ {| role := user; content := message |} ])) as Hnew.
    { apply list_lookup_insert_eq. by eapply lookup_lt_Some. }
    split.
    + unfold stored. cbn [keys lists]. by rewrite Hr.
    + unfold read. cbn [lists]. by rewrite Hnew.
Qed.

Lemma get_session_never_registers_witness :
  stored (__get_session (lit "new") (lit "hi") one_turn_cache).2 (lit "new") = None
  /\ stored (__get_session (lit "user_123") (lit "hi") one_turn_cache).2 (lit "user_123")
     = Some ([ {| role := assistant; content := lit "A1" |} ]
             ++ seed [ {| role := assistant; content := lit "A1" |} ]
             ++ [ {| role := user; content := lit "hi" |} ]).
Proof.
  split.
  - apply (get_session_never_registers (lit "new") (lit "hi") one_turn_cache).
    reflexivity.
  - apply (get_session_never_registers (lit "user_123") (lit "hi") one_turn_cache).
    reflexivity.
Defined.

End Lifecycle.

Section Saving.

Import Ollama Steps Demo.

Implicit Types (c : Cache) (k : pystr) (l : list Message).

(** X19. [__save_session] is where an entry is created: for an id without
    entry it stores a new list holding the assistant message alone; for an
    id with an entry it appends the assistant message to the stored list.
    In a well-formed cache the other ids, unless they share the list object
    of the session, keep their stored sequence. *)
Theorem save_session_registers k (reply : pystr) c :
  (keys c !! k = None ->
   stored (__save_session k reply c) k
   = Some [ {| role := assistant; content := reply |} ])
  /\ (forall l, stored c k = Some l ->
        stored (__save_session k reply c) k
        = Some (l ++ [ {| role := assistant; content := reply |} ]))
  /\ (wf c -> forall k', k' <> k ->
        (forall r, keys c !! k = Some r -> keys c !! k' <> Some r) ->
        stored (__save_session k reply c) k' = stored c k').
Proof.
  split; [|split].
  - intros Hk. rewrite (save_session_absent _ _ _ Hk). unfold stored. cbn [keys lists].
    rewrite lookup_insert_eq, lookup_app_r by done. by rewrite Nat.sub_diag.
  - intros l (r & Hr & Hl)%stored_Some.
    rewrite (save_session_present _ _ _ _ _ Hr Hl). unfold stored. cbn [keys lists].
    rewrite Hr. apply list_lookup_insert_eq. by eapply lookup_lt_Some.
  - intros Hwf k' Hne Hshare. destruct (keys c !! k) as [r|] eqn:Hr.
    + destruct (lookup_lt_is_Some_2 (lists c) r (Hwf _ _ Hr)) as [l Hl].
      rewrite (save_session_present _ _ _ _ _ Hr Hl). unfold stored. cbn [keys lists].
      destruct (keys c !! k') as [r'|] eqn:Hr'; [|done].
      apply list_lookup_insert_ne. intros <-. by apply (Hshare r).
    + rewrite (save_session_absent _ _ _ Hr). unfold stored. cbn [keys lists].
      rewrite lookup_insert_ne by done.
      destruct (keys c !! k') as [r'|] eqn:Hr'; [|done].
      apply lookup_app_l. by eapply Hwf.
Qed.

Lemma save_session_registers_witness :
  stored (__save_session (lit "new") (lit "hi") one_turn_cache) (lit "new")
  = Some [ {| role := assistant; content := lit "hi" |} ]
  /\ stored (__save_session (lit "new") (lit "hi") one_turn_cache) (lit "user_123")
     = stored one_turn_cache (lit "user_123")
  /\ stored (__save_session (lit "user_123") (lit "hi") one_turn_cache) (lit "user_123")
     = Some ([ {| role := assistant; content := lit "A1" |} ]
             ++ [ {| role := assistant; content := lit "hi" |} ]).
Proof.
  split; [|split].
  - apply (save_session_registers (lit "new") (lit "hi") one_turn_cache). reflexivity.
  - apply (save_session_registers (lit "new") (lit "hi") one_turn_cache).
    + apply one_turn_cache_wf.
    + by vm_compute.
    + intros r Hr. vm_compute in Hr. discriminate.
  - apply (save_session_registers (lit "user_123") (lit "hi") one_turn_cache).
    reflexivity.
Defined.

End Saving.

(** ** More on requests and responses *)

Section MoreResponses.

Import Ollama Steps Demo.

Implicit Types (ft : Fault -> pystr) (self : Ollama) (text tl : pystr)
  (ctx sid : option pystr) (cache : option Cache) (kw : gmap pystr pyval)
  (net : ChatRequest -> Outcome) (c : Cache) (k : pystr) (l : list Message).

Lemma lstrip_all_space (s : pystr) : forallb isspace s = true -> lstrip s = [].
Proof.
  induction s as [|a s IH]; [done|]. simpl.
  intros [Ha Hs]%andb_prop. rewrite Ha. by apply IH.
Qed.

Lemma strip_all_space (s : pystr) : forallb isspace s = true -> strip s = [].
Proof. intros Hs. unfold strip. by rewrite (lstrip_all_space _ Hs). Qed.

(** X12. A reply whose content is empty or white space only is a success
    with the empty string as translation; with a session that has an entry,
    an assistant message with empty content is stored. *)
Theorem blank_reply_is_an_empty_success ft self text tl ctx sid cache kw net q s :
  wire (translate_text ft self text tl ctx sid cache kw net) = [q] ->
  chat_reply (net q) s ->
  forallb isspace s = true ->
  let call := translate_text ft self text tl ctx sid cache kw net in
  result call = Return (true, [])
  /\ (forall k c l, session_of sid cache = Some (k, c) -> stored c k = Some l ->
        stored_after call k
        = Some (l ++ seed l
                  ++ [ {| role := user; content := user_message text ctx |};
                       {| role := assistant; content := [] |} ])).
Proof.
  intros [Hkw ->]%wire_posted Hs Hblank call.
  destruct (translate_text_content ft self text tl ctx sid cache kw net s Hkw Hs)
    as [Hres _]. fold call in Hres. rewrite (strip_all_space _ Hblank) in Hres.
  split; [done|]. intros k c l Hsess Hl.
  destruct (translate_text_existing ft self text tl ctx sid cache kw net k c l Hsess Hl)
    as (c' & Hc' & _ & _ & Hcases). fold call in Hc', Hcases.
  unfold stored_after. rewrite Hc'. cbn [stored_in].
  destruct Hcases as [(s' & _ & Hs' & _ & ->) | [[msg Hmsg] _]].
  - rewrite <- (chat_reply_inj _ _ _ Hs Hs'), (strip_all_space _ Hblank).
    by rewrite <- !app_assoc.
  - rewrite Hres in Hmsg. discriminate.
Qed.

Lemma blank_reply_is_an_empty_success_witness :
  result (translate_text cpython_text client (lit "Hello") default_target_lang None
            None None ∅ (replies (lit "  " ++ nl)))
  = Return (true, []).
Proof.
  apply (blank_reply_is_an_empty_success cpython_text client (lit "Hello")
           default_target_lang None None None ∅ (replies (lit "  " ++ nl))
           (posted client (lit "Hello") default_target_lang None None None ∅)
           (lit "  " ++ nl)).
  - reflexivity.
  - apply replies_chat_reply.
  - reflexivity.
Defined.

(** X13. The text of a success is the content of the reply without the white
    space at its two ends: the content is that text between two runs of white
    space, and the text neither starts nor ends with white space. *)
Theorem success_text_is_the_stripped_content
    ft self text tl ctx sid cache kw net t :
  result (translate_text ft self text tl ctx sid cache kw net) = Return (true, t) ->
  exists s before after,
    chat_reply (net (posted self text tl ctx sid cache kw)) s
    /\ s = before ++ t ++ after
    /\ forallb isspace before = true /\ forallb isspace after = true
    /\ (forall a r, t = a :: r -> isspace a = false)
    /\ (forall a r, t = r ++ [a] -> isspace a = false).
Proof.
  intros Hres.
  destruct (translate_text_cases ft self text tl ctx sid cache kw net)
    as [(s & _ & Hs & Hok & _) | [[Hno _] | (e & Hno & _)]];
    rewrite Hres in *; try discriminate.
  injection Hok as ->.
  destruct (strip_spec s) as (before & after & ? & ? & ? & ? & ?).
  by exists s, before, after.
Qed.

Lemma success_text_is_the_stripped_content_witness :
  exists s before after,
    chat_reply (replies (lit " 谢谢 ")
                  (posted client (lit "Thanks") default_target_lang None None None ∅)) s
    /\ s = before ++ lit "谢谢" ++ after
    /\ forallb isspace before = true /\ forallb isspace after = true.
Proof.
  destruct (success_text_is_the_stripped_content cpython_text client (lit "Thanks")
              default_target_lang None None None ∅ (replies (lit " 谢谢 ")) (lit "谢谢"))
    as (s & before & after & ? & ? & ? & ? & _); [by vm_compute|].
  by exists s, before, after.
Defined.

(** X14. A keyword argument named [messages] clashes with the positional
    argument of [__send_request]: nothing is posted and the call returns the
    failure of the handler. The messages were assembled before that: without
    session the cache is as given, and a session that has an entry has
    gained the user message of a call that sent nothing. *)
Theorem clashing_keyword_posts_nothing ft self text tl ctx sid cache kw net :
  is_Some (kw !! lit "messages") ->
  let call := translate_text ft self text tl ctx sid cache kw net in
  wire call = []
  /\ result call
     = Return (false, translate_error ++ ft (DuplicateArgument (lit "messages")))
  /\ (session_of sid cache = None -> cache_after call = cache)
  /\ (forall k c l, session_of sid cache = Some (k, c) -> stored c k = Some l ->
        stored_after call k
        = Some (l ++ seed l
                  ++ [ {| role := user; content := user_message text ctx |} ])).
Proof.
  intros Hkw call.
  destruct (translate_text_clash ft self text tl ctx sid cache kw net Hkw)
    as [Hres Hcache]. fold call in Hres, Hcache.
  split; [|split; [done|split]].
  - subst call. rewrite translate_text_wire. by rewrite bool_decide_eq_true_2.
  - intros Hs. by rewrite Hcache, assembled_no_session.
  - intros k c l Hs (r & Hr & Hl)%stored_Some.
    unfold stored_after. rewrite Hcache, (assembled_present _ _ _ _ _ _ _ _ _ Hs Hr Hl).
    cbn [snd stored_in]. unfold stored. cbn [keys lists]. rewrite Hr.
    apply list_lookup_insert_eq. by eapply lookup_lt_Some.
Qed.

Lemma clashing_keyword_posts_nothing_witness :
  wire (translate_text cpython_text client (lit "Hello") default_target_lang None
          (Some (lit "user_123")) (Some one_turn_cache)
          {[ lit "messages" := PyList [] ]} (replies (lit "你好")))
  = []
  /\ stored_after
       (translate_text cpython_text client (lit "Hello") default_target_lang None
          (Some (lit "user_123")) (Some one_turn_cache)
          {[ lit "messages" := PyList [] ]} (replies (lit "你好")))
       (lit "user_123")
     = Some ([ {| role := assistant; content := lit "A1" |} ]
             ++ seed [ {| role := assistant; content := lit "A1" |} ]
             ++ [ {| role := user; content := user_message (lit "Hello") None |} ]).
Proof.
  destruct (clashing_keyword_posts_nothing cpython_text client (lit "Hello")
              default_target_lang None (Some (lit "user_123")) (Some one_turn_cache)
              {[ lit "messages" := PyList [] ]} (replies (lit "你好")))
    as (Hwire & _ & _ & Hstored).
  - rewrite lookup_singleton_eq. eauto.
  - split; [exact Hwire|].
    apply (Hstored (lit "user_123") one_turn_cache); reflexivity.
Defined.

(** X15. A keyword argument named [stream] is the [stream] of the payload
    and never an option; without it the payload has [stream] false. *)
Theorem stream_keyword_is_not_an_option ft self text tl ctx sid cache kw net q :
  wire (translate_text ft self text tl ctx sid cache kw net) = [q] ->
  options q !! lit "stream" = None
  /\ (forall v, kw !! lit "stream" = Some v -> stream q = v)
  /\ (kw !! lit "stream" = None -> stream q = PyBool false).
Proof.
  intros [_ ->]%wire_posted. unfold posted. cbn [options stream payload].
  destruct option_keys_distinct as (_ & Hts & Hps).
  split; [|split].
  - rewrite lookup_union_r by apply lookup_delete_eq.
    rewrite default_options_lookup. by rewrite !decide_False by by apply not_eq_sym.
  - by intros v ->.
  - by intros ->.
Qed.

Lemma stream_keyword_is_not_an_option_witness :
  stream (posted client (lit "Hello") default_target_lang None None None
            {[ lit "stream" := PyBool true ]})
  = PyBool true.
Proof.
  destruct (stream_keyword_is_not_an_option cpython_text client (lit "Hello")
              default_target_lang None None None {[ lit "stream" := PyBool true ]}
              (replies (lit "你好"))
              (posted client (lit "Hello") default_target_lang None None None
                 {[ lit "stream" := PyBool true ]}))
    as (_ & Hstream & _); [reflexivity|].
  apply Hstream. apply lookup_singleton_eq.
Defined.

End MoreResponses.

(** ** The model list and the health check *)

Section Models.

Import Ollama Steps Demo.

Implicit Types (ft : Fault -> pystr) (self : Ollama)
  (net : pystr -> Z -> Outcome).

Lemma for_each_named_inv (ms names : list pyval) :
  for_each (fun model => py_getitem model (lit "name")) ms = Return names ->
  Forall2 named ms names.
Proof.
  revert names. induction ms as [|m ms IH]; intros names; cbn [for_each].
  - intros [= <-]. constructor.
  - destruct (py_getitem m (lit "name")) as [n|e] eqn:Hm; cbn [bind]; [|done].
    destruct (for_each _ ms) as [ns|e] eqn:Hms; cbn [bind]; [|done].
    intros [= <-]. constructor; [|by apply IH].
    destruct m; try discriminate. cbn [py_getitem] in Hm.
    destruct (d !! lit "name") as [x|] eqn:Hd; [|done]. injection Hm as <-.
    by exists d.
Qed.

Lemma for_each_stops_at_nameless (good names rest : list pyval) dm :
  Forall2 named good names -> dm !! lit "name" = None ->
  for_each (fun model => py_getitem model (lit "name")) (good ++ PyDict dm :: rest)
  = Raise (Interp (KeyMissing (lit "name"))).
Proof.
  intros Hgood Hdm. induction Hgood as [|m n good names (d & -> & Hn) _ IH].
  - cbn [app for_each py_getitem]. by rewrite Hdm.
  - cbn [app for_each py_getitem]. rewrite Hn. cbn [bind]. by rewrite IH.
Qed.

(** X16. [list_models] gives all the names or none. If one object of the
    list has no [name], the call returns the failure with the text of the
    [KeyError], and the names of the objects before it are not returned. An
    object body without [models] is a success with no name. *)
Theorem list_models_is_all_or_nothing ft self net d :
  net (_base_url self ++ lit "/api/tags") 10%Z = Passed (JSON (PyDict d)) ->
  (forall good names rest dm,
     d !! lit "models" = Some (PyList (good ++ PyDict dm :: rest)) ->
     Forall2 named good names -> dm !! lit "name" = None ->
     list_models ft self net
     = Return (false, [ PyStr (models_error ++ ft (KeyMissing (lit "name"))) ]))
  /\ (d !! lit "models" = None -> list_models ft self net = Return (true, [])).
Proof.
  intros Hnet. split.
  - intros good names rest dm Hd Hgood Hdm. unfold list_models. rewrite Hnet.
    cbn [bind json py_get]. rewrite Hd. cbn [default from_option id bind py_iter].
    by rewrite (for_each_stops_at_nameless _ _ _ _ Hgood Hdm).
  - intros Hd. unfold list_models. rewrite Hnet.
    cbn [bind json py_get]. by rewrite Hd.
Qed.

Lemma list_models_is_all_or_nothing_witness :
  list_models cpython_text client
    (fun _ _ => Passed (JSON (PyDict {[ lit "models" :=
        PyList ([ PyDict {[ lit "name" := PyStr (lit "a") ]} ]
                ++ PyDict {[ lit "size" := PyInt 7 ]} :: []) ]})))
  = Return (false, [ PyStr (models_error ++ lit "'name'") ])
  /\ list_models cpython_text client (fun _ _ => Passed (JSON (PyDict ∅)))
     = Return (true, []).
Proof.
  split.
  - destruct (list_models_is_all_or_nothing cpython_text client
                (fun _ _ => Passed (JSON (PyDict {[ lit "models" :=
                   PyList ([ PyDict {[ lit "name" := PyStr (lit "a") ]} ]
                           ++ PyDict {[ lit "size" := PyInt 7 ]} :: []) ]})))
                {[ lit "models" :=
                   PyList ([ PyDict {[ lit "name" := PyStr (lit "a") ]} ]
                           ++ PyDict {[ lit "size" := PyInt 7 ]} :: []) ]})
      as [Hnone _]; [reflexivity|].
    apply (Hnone [ PyDict {[ lit "name" := PyStr (lit "a") ]} ] [ PyStr (lit "a") ] []
             {[ lit "size" := PyInt 7 ]}).
    + apply lookup_singleton_eq.
    + repeat constructor. eexists. split; [reflexivity|]. apply lookup_singleton_eq.
    + by vm_compute.
  - destruct (list_models_is_all_or_nothing cpython_text client
                (fun _ _ => Passed (JSON (PyDict ∅))) ∅) as [_ Hempty]; [reflexivity|].
    apply Hempty. reflexivity.
Defined.

(** X17. [list_models] succeeds only on a response that passed the status
    check and whose body is a JSON object; the names are then those of the
    objects of its [models] list, in order, each of which has a [name]; or
    there is no name, when the object has no [models] or its [models] is an
    empty object or an empty string. *)
Theorem list_models_success_has_a_reason ft self net names :
  list_models ft self net = Return (true, names) ->
  exists d,
    net (_base_url self ++ lit "/api/tags") 10%Z = Passed (JSON (PyDict d))
    /\ match d !! lit "models" with
       | None => names = []
       | Some (PyList ms) => Forall2 named ms names
       | Some (PyDict dd) => dd = ∅ /\ names = []
       | Some (PyStr s) => s = [] /\ names = []
       | Some _ => False
       end.
Proof.
  unfold list_models.
  destruct (net _ _) as [desc|[desc|v]|status desc body|desc];
    cbn [bind json]; try done.
  destruct v as [| | | | | |d]; cbn [py_get bind]; try done.
  intros Hok. exists d. split; [done|].
  destruct (d !! lit "models") as [v|]; cbn [default from_option id] in Hok.
  - destruct v as [| | | | s | ms | dd]; cbn [py_iter bind] in Hok; try done.
    + destruct s as [|a s]; [|done]. by injection Hok as <-.
    + destruct (for_each _ ms) as [ns|e] eqn:Hms; [|done]. injection Hok as <-.
      by apply for_each_named_inv.
    + destruct (map_to_list dd) as [|[k0 v0] rest] eqn:Hdd; [|done].
      apply map_to_list_empty_iff in Hdd. by injection Hok as <-.
  - cbn [py_iter bind for_each] in Hok. by injection Hok as <-.
Qed.

Lemma list_models_success_has_a_reason_witness :
  exists d,
    Passed (JSON two_models) = Passed (JSON (PyDict d))
    /\ match d !! lit "models" with
       | None => [ PyStr (lit "a"); PyStr (lit "b") ] = []
       | Some (PyList ms) => Forall2 named ms [ PyStr (lit "a"); PyStr (lit "b") ]
       | Some (PyDict dd) => dd = ∅ /\ [ PyStr (lit "a"); PyStr (lit "b") ] = []
       | Some (PyStr s) => s = [] /\ [ PyStr (lit "a"); PyStr (lit "b") ] = []
       | Some _ => False
       end.
Proof.
  apply (list_models_success_has_a_reason cpython_text client
           (fun _ _ => Passed (JSON two_models)) [ PyStr (lit "a"); PyStr (lit "b") ]).
  reflexivity.
Defined.

(** X18. [check_health] never raises, and answers true exactly when the GET
    returns a response with status 200. When it answers true, and
    [raise_for_status] does not raise on 200, the GET of [list_models] on a
    server that answers it the same way passes the status check: if the body
    is an object whose [models] lists named objects, [list_models] returns
    their names. *)
Theorem healthy_server_lists_models
    ft self (is_error : Z -> bool) (error_text : Z -> pystr)
    (server : pystr -> Z -> Fetched) :
  (exists b, check_health self server = Return b)
  /\ (check_health self server = Return true <->
      exists body, server (_base_url self ++ lit "/api/tags") 5%Z = Answered 200 body)
  /\ (check_health self server = Return true ->
      is_error 200%Z = false ->
      server (_base_url self ++ lit "/api/tags") 10%Z
      = server (_base_url self ++ lit "/api/tags") 5%Z ->
      forall d ms names,
        server (_base_url self ++ lit "/api/tags") 5%Z
        = Answered 200 (JSON (PyDict d)) ->
        d !! lit "models" = Some (PyList ms) -> Forall2 named ms names ->
        list_models ft self (fun u t => checked is_error error_text (server u t))
        = Return (true, names)).
Proof.
  split; [|split].
  - unfold check_health. destruct (server _ _); eauto.
  - unfold check_health. split.
    + destruct (server _ _) as [desc|st body]; [done|].
      intros [= Hst]. apply Z.eqb_eq in Hst as ->. eauto.
    + by intros [body ->].
  - intros _ Hok Hsame d ms names Hanswer Hd Hnames.
    unfold list_models, checked. rewrite Hsame, Hanswer, Hok.
    cbn [bind json py_get]. rewrite Hd. cbn [default from_option id bind py_iter].
    by rewrite (for_each_names _ _ Hnames).
Qed.

Lemma healthy_server_lists_models_witness :
  list_models cpython_text client
    (fun u t => checked http_is_error http_error_text (Answered 200 (JSON two_models)))
  = Return (true, [ PyStr (lit "a"); PyStr (lit "b") ]).
Proof.
  destruct (healthy_server_lists_models cpython_text client http_is_error
              http_error_text (fun _ _ => Answered 200 (JSON two_models)))
    as (_ & _ & Hlist).
  eapply Hlist; try reflexivity.
  repeat constructor; (eexists; split; [reflexivity|]; apply lookup_singleton_eq).
Defined.

End Models.
